(** * multistate_kernel.util

    A shallow embedding of [src/multistate_kernel/util.py]: the immutable
    ordered dictionary [FrozenOrderedDict], the records [StateData] and
    [ScikitLearnData], and the class [MultiStateData] with its factory
    methods.

    Conventions of the embedding.
    - A numpy array is the list of its entries, each a real number: a 1-D
      array is a [list R], the N x 2 matrix [x] is a list of rows [R * R].
      NaN and infinities are outside the model.  What [from_state_data]
      computes in float64 ([y.std()] and the division by the norm) is a
      parameter of its embedding, so nothing is assumed of its rounding;
      the element type of the values, on which the in-place division
      depends, is a parameter too.
    - A Python call that may raise returns a [result]; the exception classes
      that the module can raise are the constructors of [exn].
    - [collections.OrderedDict] is an association list in insertion order. *)

From Stdlib Require Import String Reals Lra List ZArith Lia Bool Arith Sorted.
Import ListNotations.

Set Implicit Arguments.

(** ** Exceptions *)

Inductive exn : Type :=
| ValueError
| KeyError
| IndexError
| AttributeError
| TypeError.

Inductive result (A : Type) : Type :=
| Ok (a : A)
| Raise (e : exn).

Arguments Ok {A} a.
Arguments Raise {A} e.

Definition bind {A B : Type} (c : result A) (k : A -> result B) : result B :=
  match c with
  | Ok a => k a
  | Raise e => Raise e
  end.

Notation "x <- c ;; k" := (bind c (fun x => k))
  (at level 61, c at next level, right associativity).

(** ** Keys

    State names are strings in the documented use; when [keys] is omitted
    [from_scikit_learn_data] takes them from [np.unique], which gives
    numbers. *)

Inductive Key : Type :=
| KStr (s : string)
| KNum (r : R).

Definition key_eq_dec (a b : Key) : {a = b} + {a <> b}.
Proof.
  decide equality; [apply string_dec | apply Req_dec_T].
Defined.

(** [enumerate(l)] *)
Definition enumerate {A : Type} (l : list A) : list (nat * A) :=
  combine (seq 0 (length l)) l.

(** [t[i]] on a tuple: a negative index counts from the end, an index out of
    range raises [IndexError]. *)
Definition tuple_getitem {A : Type} (t : list A) (i : Z) : result A :=
  let n := Z.of_nat (length t) in
  let j := if (i <? 0)%Z then (i + n)%Z else i in
  if ((j <? 0) || (n <=? j))%Z then Raise IndexError
  else match nth_error t (Z.to_nat j) with
       | Some a => Ok a
       | None => Raise IndexError
       end.

(** ** collections.OrderedDict (and dict: only lookup is used on it) *)

Module OrderedDict.
Section Defs.
Context {V : Type}.

Definition t : Type := list (Key * V).

(** [d[k] = v]: a new key goes last, a known key keeps its place. *)
Fixpoint setitem (d : t) (k : Key) (v : V) : t :=
  match d with
  | [] => [(k, v)]
  | (k', v') :: d' =>
      if key_eq_dec k' k then (k', v) :: d'
      else (k', v') :: setitem d' k v
  end.

(** [d.update(items)] *)
Definition update (d : t) (items : list (Key * V)) : t :=
  fold_left (fun d kv => setitem d (fst kv) (snd kv)) items d.

(** [OrderedDict(items)] *)
Definition of_items (items : list (Key * V)) : t := update [] items.

(** [d[k]] *)
Fixpoint getitem (d : t) (k : Key) : result V :=
  match d with
  | [] => Raise KeyError
  | (k', v) :: d' => if key_eq_dec k' k then Ok v else getitem d' k
  end.

Definition keys (d : t) : list Key := map fst d.
Definition values (d : t) : list V := map snd d.
End Defs.
Arguments t V : clear implicits.
End OrderedDict.

(** ** FrozenOrderedDict *)

Module FrozenOrderedDict.
Section Defs.
Context {V : Type}.

Record t : Type := mk { _d : OrderedDict.t V; _hash : option Z }.

Definition __init__ (items : list (Key * V)) : t :=
  {| _d := OrderedDict.of_items items; _hash := None |}.

Definition __iter__ (self : t) : list Key := OrderedDict.keys (_d self).

Definition __len__ (self : t) : nat := length (_d self).

Definition __getitem__ (self : t) (item : Key) : result V :=
  OrderedDict.getitem (_d self) item.

(** [Mapping.values], through [six.itervalues] *)
Definition itervalues (self : t) : list V := OrderedDict.values (_d self).

(** [__hash__].  [iteritems(self._d)] makes a new iterator object, here
    of identity [fresh]; the iterator's type defines no [__hash__], so
    [hash] falls to [object.__hash__], a function [object_hash] of the
    identity alone.  The method returns the hash and the instance with its
    cache filled. *)
Definition __hash__ (object_hash : Z -> Z) (self : t) (fresh : Z)
  : result (Z * t) :=
  match _hash self with
  | None =>
      let h := object_hash fresh in
      Ok (h, {| _d := _d self; _hash := Some h |})
  | Some h => Ok (h, self)
  end.
End Defs.
Arguments t V : clear implicits.
End FrozenOrderedDict.

(** ** The two namedtuples *)

Module StateData.
Record t : Type := mk { x : list R; y : list R; err : list R }.
End StateData.

Module ScikitLearnData.
Record t : Type :=
  mk { x : list (R * R); y : list R; err : list R; norm : R }.
End ScikitLearnData.

(** ** The numpy functions the module calls *)

Module np.
Local Open Scope R_scope.

(** [np.full_like(x, i)] *)
Definition full_like (x : list R) (i : nat) : list R :=
  map (fun _ => INR i) x.

(** [np.block(rows)] where every row is a pair of column vectors
    [[a.reshape(-1,1), b.reshape(-1,1)]]: the pair becomes an n x 2
    block, the blocks are stacked.  An empty list raises [ValueError]. *)
Definition block (rows : list (list R * list R)) : result (list (R * R)) :=
  match rows with
  | [] => Raise ValueError
  | _ :: _ => Ok (concat (map (fun ab => combine (fst ab) (snd ab)) rows))
  end.

(** [np.hstack(arrays)] on 1-D arrays; an empty sequence raises
    [ValueError]. *)
Definition hstack (arrays : list (list R)) : result (list R) :=
  match arrays with
  | [] => Raise ValueError
  | _ :: _ => Ok (concat arrays)
  end.

Definition sum (a : list R) : R := fold_right Rplus 0 a.

Definition mean (a : list R) : R := sum a / INR (length a).

(** [a[mask]] with a boolean mask; the lengths must agree. *)
Definition bool_index {A : Type} (a : list A) (mask : list bool)
  : result (list A) :=
  if (length mask =? length a)%nat
  then Ok (map snd (filter fst (combine mask a)))
  else Raise IndexError.

(** [np.unique(a)]: the distinct values, ascending. *)
Fixpoint insert_unique (v : R) (s : list R) : list R :=
  match s with
  | [] => [v]
  | w :: s' =>
      if Rlt_dec v w then v :: s
      else if Req_dec_T v w then s
      else w :: insert_unique v s'
  end.

Definition unique (a : list R) : list R := fold_right insert_unique [] a.
End np.

(** [a or b] on numbers: [a] when it is nonzero, else [b]. *)
Definition py_or (a b : R) : R := if Req_dec_T a 0 then b else a.

(** The generator handed to [FrozenOrderedDict] is consumed to its end; the
    first element that raises ends the construction. *)
Fixpoint mapM {A B : Type} (f : A -> result B) (l : list A)
  : result (list B) :=
  match l with
  | [] => Ok []
  | a :: l' => b <- f a ;; bs <- mapM f l' ;; Ok (b :: bs)
  end.

(** [row[0] == i]: one entry of the mask [data.x[:,0] == i]. *)
Definition index_is (i : nat) (row : R * R) : bool :=
  if Req_dec_T (fst row) (INR i) then true else false.

(** The element type of an array of values. *)
Inductive dtype : Type :=
| int64
| float64.

(** The population standard deviation in exact arithmetic: what [y.std()]
    approximates.  It stands for [y.std()] in the examples only. *)
Definition exact_std (a : list R) : R :=
  sqrt (np.mean (map (fun v => Rsqr (v - np.mean a)) a)).

(** ** MultiStateData *)

Module MultiStateData.
Local Open Scope R_scope.

Record t : Type := mk {
  _dict : FrozenOrderedDict.t StateData.t;
  _scikit : ScikitLearnData.t;
  _keys_tuple : list Key;
  _state_idx_dict : OrderedDict.t nat
}.

Definition __init__ (state_data_odict : FrozenOrderedDict.t StateData.t)
    (scikit_learn_data : ScikitLearnData.t) : t :=
  {| _dict := state_data_odict;
     _scikit := scikit_learn_data;
     _keys_tuple := FrozenOrderedDict.__iter__ state_data_odict;
     _state_idx_dict :=
       OrderedDict.of_items
         (map (fun ix => (snd ix, fst ix))
              (enumerate (FrozenOrderedDict.__iter__ state_data_odict))) |}.

Definition odict (self : t) := _dict self.
Definition arrays (self : t) := _scikit self.
Definition norm (self : t) : R := ScikitLearnData.norm (_scikit self).
Definition keys (self : t) : list Key := _keys_tuple self.

(** [key(idx)]: [self._keys_tuple[idx]] *)
Definition key (self : t) (idx : Z) : result Key :=
  tuple_getitem (_keys_tuple self) idx.

(** [idx(key)]: [self._state_idx_dict[key]] *)
Definition idx (self : t) (k : Key) : result nat :=
  OrderedDict.getitem (_state_idx_dict self) k.

Definition _x_2d_from_1d (x_1d_ : list (list R)) : result (list (R * R)) :=
  np.block (map (fun ix => (np.full_like (snd ix) (fst ix), snd ix))
                (enumerate x_1d_)).

(** [sample(x)]: [self._x_2d_from_1d([x]*len(self.keys))] *)
Definition sample (self : t) (x : list R) : result (list (R * R)) :=
  _x_2d_from_1d (repeat x (length (keys self))).

(** The names an instance answers to: what [__init__] stores, what the
    class body defines, and what every object inherits.  [__name__] is an
    attribute of the class object, not of its instances. *)
Definition instance_attributes : list string :=
  ["_dict"; "_scikit"; "_keys_tuple"; "_state_idx_dict"]%string.

Definition class_attributes : list string :=
  ["__module__"; "__doc__"; "__init__"; "odict"; "arrays"; "norm"; "keys";
   "key"; "idx"; "_x_2d_from_1d"; "sample"; "convert_arrays"; "from_items";
   "from_state_data"; "from_arrays"; "from_scikit_learn_data"]%string.

Definition object_attributes : list string :=
  ["__class__"; "__dict__"; "__weakref__"; "__delattr__"; "__dir__";
   "__eq__"; "__format__"; "__ge__"; "__getattribute__"; "__gt__";
   "__hash__"; "__init_subclass__"; "__le__"; "__lt__"; "__ne__"; "__new__";
   "__reduce__"; "__reduce_ex__"; "__repr__"; "__setattr__"; "__sizeof__";
   "__str__"; "__subclasshook__"]%string.

(** [self.<name>], as far as it succeeds or raises. *)
Definition getattr (self : t) (name : string) : result unit :=
  if existsb (String.eqb name)
       (instance_attributes ++ class_attributes ++ object_attributes)
  then Ok tt
  else Raise AttributeError.

(** One turn of the loop inside [from_scikit_learn_data]: the pair the
    generator yields for position [i] and name [key]. *)
Definition yield_state (data : ScikitLearnData.t) (i : nat) (key : Key)
  : result (Key * StateData.t) :=
  let idx := map (index_is i) (ScikitLearnData.x data) in
  sx <- np.bool_index (map snd (ScikitLearnData.x data)) idx ;;
  sy <- np.bool_index (ScikitLearnData.y data) idx ;;
  se <- np.bool_index (ScikitLearnData.err data) idx ;;
  Ok (key,
      StateData.mk sx
        (map (fun v => v * ScikitLearnData.norm data) sy)
        (map (fun v => v * ScikitLearnData.norm data) se)).

(** The generator inside [from_scikit_learn_data]. *)
Definition multi_state_data_generator (data : ScikitLearnData.t)
    (keys : list Key) : result (list (Key * StateData.t)) :=
  mapM (fun ik => yield_state data (fst ik) (snd ik)) (enumerate keys).

Definition from_scikit_learn_data (data : ScikitLearnData.t)
    (keys : option (list Key)) : result t :=
  let keys :=
    match keys with
    | None => map KNum (np.unique (map fst (ScikitLearnData.x data)))
    | Some ks => ks
    end in
  items <- multi_state_data_generator data keys ;;
  Ok (__init__ (FrozenOrderedDict.__init__ items) data).

(** [from_arrays(x, y, err, norm=1, **kwargs)] *)
Definition from_arrays (x : list (R * R)) (y err : list R) (norm : option R)
    (keys : option (list Key)) : result t :=
  let norm := match norm with None => 1 | Some n => n end in
  from_scikit_learn_data (ScikitLearnData.mk x y err norm) keys.

(** [convert_arrays(x, y, err)].  The body opens with an expression
    statement, a string literal followed by
    [.format(class_name=self.__name__)]: a call, not a docstring, evaluated
    at every call of the method before the [return]. *)
Definition convert_arrays (self : t) (x : list (R * R)) (y err : list R)
  : result t :=
  _ <- getattr self "__name__" ;;
  from_arrays x y err (Some (norm self)) (Some (keys self)).

Section Float64.
(** The float64 arithmetic of numpy that [from_state_data] relies on: the
    method [y.std()] and the true division of arrays by a scalar.  They
    are taken as they are computed, with their rounding. *)
Variable std : list R -> R.
Variable true_divide : R -> R -> R.

(** [from_state_data].  [y_dtype] is the element type of the concatenated
    [y], which a list of numbers does not record: the in-place division
    [y /= norm] raises [TypeError] on an array of integers. *)
Definition from_state_data (y_dtype : dtype)
    (items : list (Key * StateData.t)) : result t :=
  let d := FrozenOrderedDict.__init__ items in
  x <- _x_2d_from_1d (map StateData.x (FrozenOrderedDict.itervalues d)) ;;
  y <- np.hstack (map StateData.y (FrozenOrderedDict.itervalues d)) ;;
  if (length y =? 0)%nat then Raise ValueError
  else
    let norm := py_or (std y) (py_or (nth 0 y 0) 1) in
    y <- match y_dtype with
         | int64 => Raise TypeError
         | float64 => Ok (map (fun v => true_divide v norm) y)
         end ;;
    e <- np.hstack (map StateData.err (FrozenOrderedDict.itervalues d)) ;;
    let err := map (fun v => true_divide v norm) e in
    Ok (__init__ d (ScikitLearnData.mk x y err norm)).

(** [from_items(items)]: items are pairs [(key, (x, y, err))]. *)
Definition from_items (y_dtype : dtype)
    (items : list (Key * (list R * list R * list R))) : result t :=
  from_state_data y_dtype
    (map (fun kv =>
            (fst kv,
             StateData.mk (fst (fst (snd kv))) (snd (fst (snd kv)))
                          (snd (snd kv))))
         items).
End Float64.
End MultiStateData.

Definition data_from_items := MultiStateData.from_items.
Definition data_from_state_data := MultiStateData.from_state_data.
Definition data_from_arrays := MultiStateData.from_arrays.

(** ** Notions used to state the properties *)

(** The rows [np.block] makes for a list of states numbered from [off]:
    [_x_2d_from_1d] is [blocks_from 0] on a non-empty list. *)
Definition blocks_from (off : nat) (x_1d_ : list (list R)) : list (R * R) :=
  concat (map (fun ab => combine (fst ab) (snd ab))
            (map (fun ix => (np.full_like (snd ix) (fst ix), snd ix))
                 (combine (seq off (length x_1d_)) x_1d_))).

(** A state record whose three sequences have one length. *)
Definition equal_length (v : StateData.t) : Prop :=
  length (StateData.x v) = length (StateData.y v)
  /\ length (StateData.err v) = length (StateData.y v).

(** A flat bundle: an N x 2 matrix and two vectors of length N. *)
Definition flat_bundle (data : ScikitLearnData.t) : Prop :=
  length (ScikitLearnData.y data) = length (ScikitLearnData.x data)
  /\ length (ScikitLearnData.err data) = length (ScikitLearnData.x data).

(** The total number of observations of a dictionary of states. *)
Definition total_observations (d : OrderedDict.t StateData.t) : nat :=
  list_sum (map (fun v => length (StateData.y v)) (OrderedDict.values d)).

(** The rows of a bundle, each with its value and error, whose index column
    is [i]; and the state they make once multiplied back by [norm]. *)
Definition rows_with_index (data : ScikitLearnData.t) (i : nat)
  : list (R * R * R * R) :=
  filter (fun r => index_is i (fst (fst r)))
         (combine (combine (ScikitLearnData.x data) (ScikitLearnData.y data))
                  (ScikitLearnData.err data)).

(** The entries [a[mask]] keeps, for the mask of index [k] over the rows
    [X]. *)
Definition sel (k : nat) (X : list (R * R)) (P : list R) : list R :=
  map snd (filter (fun xa => index_is k (fst xa)) (combine X P)).

(** A row whose index column is one of the positions [0 .. n-1]. *)
Definition index_in_range (n : nat) (row : R * R) : bool :=
  existsb (fun i => index_is i row) (seq 0 n).


(** The payload [f] of a state is as long as its coordinates. *)
Definition fits (f : StateData.t -> list R) (v : StateData.t) : Prop :=
  length (f v) = length (StateData.x v).

Definition state_of_index (data : ScikitLearnData.t) (i : nat) : StateData.t :=
  let rows := rows_with_index data i in
  StateData.mk
    (map (fun r => snd (fst (fst r))) rows)
    (map (fun r => (snd (fst r) * ScikitLearnData.norm data)%R) rows)
    (map (fun r => (snd r * ScikitLearnData.norm data)%R) rows).

(** * Facts about the ordered dictionary *)

Section OrderedDictFacts.
Context {V : Type}.
Implicit Types (d : OrderedDict.t V) (k : Key) (v : V).
Implicit Types items : list (Key * V).

Local Ltac case_key :=
  repeat match goal with
         | |- context [key_eq_dec ?a ?b] => destruct (key_eq_dec a b); subst
         | H : context [key_eq_dec ?a ?b] |- _ =>
             destruct (key_eq_dec a b); subst
         end.

Lemma getitem_setitem_same d k v :
  OrderedDict.getitem (OrderedDict.setitem d k v) k = Ok v.
Proof.
  induction d as [|[k' v'] d IH]; simpl; case_key; simpl; case_key;
    try congruence; auto.
Qed.

Lemma getitem_setitem_other d k k' v :
  k <> k' ->
  OrderedDict.getitem (OrderedDict.setitem d k v) k' = OrderedDict.getitem d k'.
Proof.
  intros Hne.
  induction d as [|[k0 v0] d IH]; simpl; case_key; simpl; case_key;
    try congruence; auto.
Qed.

Lemma setitem_new d k v :
  ~ In k (OrderedDict.keys d) -> OrderedDict.setitem d k v = d ++ [(k, v)].
Proof.
  induction d as [|[k0 v0] d IH]; simpl; intros Hn; auto.
  case_key; [tauto|]. f_equal. apply IH. tauto.
Qed.

Lemma keys_setitem_known d k v :
  In k (OrderedDict.keys d) ->
  OrderedDict.keys (OrderedDict.setitem d k v) = OrderedDict.keys d.
Proof.
  induction d as [|[k0 v0] d IH]; simpl; intros Hin; [tauto|].
  case_key; simpl; auto. f_equal. apply IH. destruct Hin; congruence.
Qed.

Lemma keys_setitem d k v :
  OrderedDict.keys (OrderedDict.setitem d k v) =
  if in_dec key_eq_dec k (OrderedDict.keys d)
  then OrderedDict.keys d else OrderedDict.keys d ++ [k].
Proof.
  destruct (in_dec key_eq_dec k (OrderedDict.keys d)) as [Hin|Hn].
  - now apply keys_setitem_known.
  - rewrite setitem_new by assumption. unfold OrderedDict.keys.
    now rewrite map_app.
Qed.

Lemma setitem_nodup d k v :
  NoDup (OrderedDict.keys d) ->
  NoDup (OrderedDict.keys (OrderedDict.setitem d k v)).
Proof.
  intros Hnd. rewrite keys_setitem.
  destruct (in_dec key_eq_dec k (OrderedDict.keys d)) as [Hin|Hn]; auto.
  apply NoDup_rev in Hnd. rewrite <- (rev_involutive (_ ++ _)).
  apply NoDup_rev. rewrite rev_app_distr. simpl. constructor; auto.
  now rewrite <- in_rev.
Qed.

Lemma update_nodup items : forall d,
  NoDup (OrderedDict.keys d) -> NoDup (OrderedDict.keys (OrderedDict.update d items)).
Proof.
  induction items as [|[k v] items IH]; simpl; intros d Hnd; auto.
  apply IH, setitem_nodup, Hnd.
Qed.

Lemma of_items_nodup items :
  NoDup (OrderedDict.keys (OrderedDict.of_items items)).
Proof. apply update_nodup. constructor. Qed.

Lemma update_fresh items : forall d,
  NoDup (OrderedDict.keys (d ++ items)) -> OrderedDict.update d items = d ++ items.
Proof.
  induction items as [|[k v] items IH]; simpl; intros d Hnd.
  - now rewrite app_nil_r.
  - assert (Hd : d ++ (k, v) :: items = (d ++ [(k, v)]) ++ items)
      by now rewrite <- app_assoc.
    rewrite Hd in *. rewrite setitem_new.
    + now apply IH.
    + unfold OrderedDict.keys in *. rewrite !map_app in Hnd. simpl in Hnd.
      rewrite <- app_assoc in Hnd. simpl in Hnd.
      apply NoDup_remove_2 in Hnd. intro Hin. apply Hnd, in_or_app. auto.
Qed.

(** Rebuilding a dictionary from its own items gives it back. *)
Lemma of_items_fixed d :
  NoDup (OrderedDict.keys d) -> OrderedDict.of_items d = d.
Proof. intros Hnd. apply (update_fresh d []), Hnd. Qed.

Lemma keys_update items : forall d k,
  In k (OrderedDict.keys (OrderedDict.update d items)) <->
  In k (OrderedDict.keys d) \/ In k (map fst items).
Proof.
  induction items as [|[k0 v0] items IH]; simpl; intros d k; [tauto|].
  rewrite IH, keys_setitem.
  destruct (in_dec key_eq_dec k0 (OrderedDict.keys d)) as [Hin|Hn].
  - intuition (subst; auto).
  - rewrite in_app_iff. simpl. tauto.
Qed.

Lemma keys_of_items items k :
  In k (OrderedDict.keys (OrderedDict.of_items items)) <-> In k (map fst items).
Proof.
  unfold OrderedDict.of_items. rewrite keys_update. simpl. tauto.
Qed.

Lemma getitem_absent d k :
  ~ In k (OrderedDict.keys d) <-> OrderedDict.getitem d k = Raise KeyError.
Proof.
  induction d as [|[k0 v0] d IH]; simpl; [tauto|].
  case_key.
  - split; [tauto | discriminate].
  - rewrite <- IH. intuition congruence.
Qed.

Lemma getitem_present d k :
  In k (OrderedDict.keys d) ->
  exists v, OrderedDict.getitem d k = Ok v /\ In (k, v) d.
Proof.
  induction d as [|[k0 v0] d IH]; simpl; [tauto|]. intros Hin.
  case_key.
  - eauto.
  - destruct IH as (v & Hv & Hin'); [destruct Hin; congruence|]. eauto.
Qed.

Lemma getitem_update_skip items : forall d k,
  ~ In k (map fst items) ->
  OrderedDict.getitem (OrderedDict.update d items) k = OrderedDict.getitem d k.
Proof.
  induction items as [|[k0 v0] items IH]; simpl; intros d k Hn; auto.
  rewrite IH by tauto. apply getitem_setitem_other. tauto.
Qed.

(** The value bound to a key is the one of its last item. *)
Lemma getitem_of_items_last items1 items2 k v :
  ~ In k (map fst items2) ->
  OrderedDict.getitem (OrderedDict.of_items (items1 ++ (k, v) :: items2)) k
  = Ok v.
Proof.
  intros Hn. unfold OrderedDict.of_items, OrderedDict.update.
  rewrite fold_left_app. simpl.
  etransitivity; [apply getitem_update_skip, Hn|].
  apply getitem_setitem_same.
Qed.

Lemma getitem_update_in items : forall d k v,
  OrderedDict.getitem (OrderedDict.update d items) k = Ok v ->
  OrderedDict.getitem d k = Ok v \/ In (k, v) items.
Proof.
  induction items as [|[k0 v0] items IH]; simpl; intros d k v H; auto.
  apply IH in H. destruct H as [H|H]; auto.
  destruct (key_eq_dec k0 k) as [->|Hne].
  - rewrite getitem_setitem_same in H. injection H as ->. auto.
  - rewrite getitem_setitem_other in H by assumption. auto.
Qed.

Lemma getitem_of_items_in items k v :
  OrderedDict.getitem (OrderedDict.of_items items) k = Ok v -> In (k, v) items.
Proof.
  intros H. apply (getitem_update_in items []) in H.
  destruct H as [H|H]; [discriminate|assumption].
Qed.
End OrderedDictFacts.

(** * Facts about enumerate and tuple indexing *)

Lemma combine_seq_snd {A : Type} (l : list A) : forall off,
  map snd (combine (seq off (length l)) l) = l.
Proof.
  induction l as [|a l IH]; simpl; intros off; auto. now rewrite IH.
Qed.

Lemma enumerate_snd {A : Type} (l : list A) : map snd (enumerate l) = l.
Proof. apply combine_seq_snd. Qed.

Lemma combine_seq_in {A : Type} (l : list A) : forall off i a,
  In (i, a) (combine (seq off (length l)) l) <->
  (off <= i)%nat /\ nth_error l (i - off) = Some a.
Proof.
  induction l as [|b l IH]; simpl; intros off i a.
  - split; [tauto|]. intros [_ H]. now destruct (i - off)%nat.
  - rewrite IH. split.
    + intros [Heq|[Hle Hnth]].
      * injection Heq as -> ->. rewrite Nat.sub_diag. auto.
      * split; [lia|]. replace (i - off)%nat with (S (i - S off)) by lia.
        exact Hnth.
    + intros [Hle Hnth]. destruct (i - off)%nat as [|j] eqn:Hj.
      * left. injection Hnth as ->. f_equal. lia.
      * right. split; [lia|]. replace (i - S off)%nat with j by lia.
        exact Hnth.
Qed.

Lemma enumerate_in {A : Type} (l : list A) i a :
  In (i, a) (enumerate l) <-> nth_error l i = Some a.
Proof.
  unfold enumerate. rewrite combine_seq_in, Nat.sub_0_r.
  split; [tauto | split; [lia | assumption]].
Qed.

Lemma tuple_getitem_nonneg {A : Type} (t : list A) (i : Z) :
  (0 <= i < Z.of_nat (length t))%Z ->
  exists a, tuple_getitem t i = Ok a /\ nth_error t (Z.to_nat i) = Some a.
Proof.
  intros Hi. unfold tuple_getitem.
  destruct (Z.ltb_spec i 0); [lia|].
  destruct (Z.ltb_spec i 0); [lia|].
  destruct (Z.leb_spec (Z.of_nat (length t)) i); [lia|]. simpl.
  destruct (nth_error t (Z.to_nat i)) as [a|] eqn:Hn; eauto.
  apply nth_error_None in Hn. lia.
Qed.

Lemma tuple_getitem_negative {A : Type} (t : list A) (i : Z) :
  (- Z.of_nat (length t) <= i < 0)%Z ->
  exists a, tuple_getitem t i = Ok a /\
            nth_error t (Z.to_nat (i + Z.of_nat (length t))) = Some a.
Proof.
  intros Hi. unfold tuple_getitem.
  destruct (Z.ltb_spec i 0); [|lia].
  destruct (Z.ltb_spec (i + Z.of_nat (length t)) 0); [lia|].
  destruct (Z.leb_spec (Z.of_nat (length t)) (i + Z.of_nat (length t)));
    [lia|]. simpl.
  destruct (nth_error t (Z.to_nat (i + Z.of_nat (length t)))) as [a|] eqn:Hn;
    eauto.
  apply nth_error_None in Hn. lia.
Qed.

Lemma tuple_getitem_out_of_range {A : Type} (t : list A) (i : Z) :
  (i < - Z.of_nat (length t) \/ Z.of_nat (length t) <= i)%Z ->
  tuple_getitem t i = Raise IndexError.
Proof.
  intros Hi. unfold tuple_getitem.
  destruct (Z.ltb_spec i 0).
  - destruct (Z.ltb_spec (i + Z.of_nat (length t)) 0); [reflexivity|lia].
  - destruct (Z.ltb_spec i 0); [lia|].
    destruct (Z.leb_spec (Z.of_nat (length t)) i); [reflexivity|lia].
Qed.

(** * FrozenOrderedDict.__hash__ *)

(** C6 (as the code has it).  The first [hash] of a map is the identity hash
    of the iterator object made for the call: it succeeds for every value
    type, does not depend on the entries, and is cached, so later calls
    return it again whatever iterator they would make. *)
Theorem FrozenOrderedDict_hash_is_identity_hash :
  forall (V : Type) (object_hash : Z -> Z) (items : list (Key * V))
         (fresh fresh' : Z),
  exists self',
    FrozenOrderedDict.__hash__ object_hash
      (FrozenOrderedDict.__init__ items) fresh = Ok (object_hash fresh, self')
    /\ FrozenOrderedDict._d self' = OrderedDict.of_items items
    /\ FrozenOrderedDict.__hash__ object_hash self' fresh'
       = Ok (object_hash fresh, self').
Proof.
  intros. eexists. repeat split.
Qed.

(** Two maps with the same entries, hashed through two iterator objects,
    get two hashes as soon as the identity hash tells the objects apart. *)
Example FrozenOrderedDict_equal_maps_hash_apart :
  let d := FrozenOrderedDict.__init__ [(KStr "a", 1%Z)] in
  FrozenOrderedDict.__hash__ (fun id => id) d 16
  <> FrozenOrderedDict.__hash__ (fun id => id) d 32.
Proof. discriminate. Qed.

(** * key, idx and lookups *)

(** C10 (amended).  [idx] of an unregistered key and lookup of an absent
    key raise [KeyError]; [key(i)] raises [IndexError] for [i >= numStates]
    and for [i < -numStates]; registered keys and indices in
    [[0, numStates)] succeed, and so do the negative indices
    [-numStates <= i < 0], which count from the end. *)
Theorem lookup_errors :
  forall (d : FrozenOrderedDict.t StateData.t) (s : ScikitLearnData.t),
    let m := MultiStateData.__init__ d s in
    let n := Z.of_nat (length (MultiStateData.keys m)) in
    (forall k, ~ In k (MultiStateData.keys m) ->
               MultiStateData.idx m k = Raise KeyError)
    /\ (forall k, In k (MultiStateData.keys m) ->
          exists i, MultiStateData.idx m k = Ok i
                    /\ nth_error (MultiStateData.keys m) i = Some k)
    /\ (forall i, (i < - n \/ n <= i)%Z ->
                  MultiStateData.key m i = Raise IndexError)
    /\ (forall i, (0 <= i < n)%Z ->
          exists k, MultiStateData.key m i = Ok k
                    /\ nth_error (MultiStateData.keys m) (Z.to_nat i) = Some k)
    /\ (forall i, (- n <= i < 0)%Z ->
          exists k, MultiStateData.key m i = Ok k
                    /\ nth_error (MultiStateData.keys m) (Z.to_nat (i + n))
                       = Some k)
    /\ (forall k, ~ In k (FrozenOrderedDict.__iter__ d) ->
                  FrozenOrderedDict.__getitem__ d k = Raise KeyError)
    /\ (forall k, In k (FrozenOrderedDict.__iter__ d) ->
          exists v, FrozenOrderedDict.__getitem__ d k = Ok v).
Proof.
  intros d s m n. unfold MultiStateData.idx, MultiStateData.key. simpl.
  assert (Hfst : map fst (map (fun ix : nat * Key => (snd ix, fst ix))
                   (enumerate (FrozenOrderedDict.__iter__ d)))
                 = FrozenOrderedDict.__iter__ d).
  { rewrite map_map. simpl. apply enumerate_snd. }
  repeat split.
  - intros k Hk. apply getitem_absent. rewrite keys_of_items, Hfst. exact Hk.
  - intros k Hk.
    destruct (@getitem_present _ (OrderedDict.of_items
                (map (fun ix : nat * Key => (snd ix, fst ix))
                     (enumerate (FrozenOrderedDict.__iter__ d)))) k)
      as (i & Hi & _).
    { rewrite keys_of_items, Hfst. exact Hk. }
    exists i. split; [exact Hi|].
    apply getitem_of_items_in, in_map_iff in Hi.
    destruct Hi as ([j k'] & Heq & Hin). simpl in Heq. injection Heq as -> ->.
    now apply enumerate_in.
  - intros i Hi. now apply tuple_getitem_out_of_range.
  - intros i Hi. now apply tuple_getitem_nonneg.
  - intros i Hi. now apply tuple_getitem_negative.
  - intros k Hk. now apply getitem_absent.
  - intros k Hk. destruct (@getitem_present _ _ _ Hk) as (v & Hv & _). eauto.
Qed.

(** A key the map holds once only, at position 0, looked up with [-1]. *)
Lemma key_negative_index_counterexample :
  exists m,
    MultiStateData.from_arrays [] [] [] None (Some [KStr "a"]) = Ok m
    /\ ~ (0 <= -1 < Z.of_nat (length (MultiStateData.keys m)))%Z
    /\ MultiStateData.key m (-1) = Ok (KStr "a").
Proof.
  eexists. split; [reflexivity|]. split; [simpl; lia | reflexivity].
Qed.

Lemma lookup_errors_witness :
  MultiStateData.key
    (MultiStateData.__init__
       (FrozenOrderedDict.__init__ [(KStr "a", StateData.mk [] [] [])])
       (ScikitLearnData.mk [] [] [] 1))
    1 = Raise IndexError.
Proof.
  destruct (lookup_errors
              (FrozenOrderedDict.__init__ [(KStr "a", StateData.mk [] [] [])])
              (ScikitLearnData.mk [] [] [] 1)) as (_ & _ & H & _).
  apply H. simpl. lia.
Defined.

(** * convert_arrays *)

(** C2 (as the code has it).  [convert_arrays] evaluates [self.__name__]
    before its [return]; an instance has no such attribute, so every call
    raises [AttributeError] and no instance is returned. *)
Theorem convert_arrays_raises_AttributeError :
  forall (self : MultiStateData.t) (x : list (R * R)) (y err : list R),
    MultiStateData.convert_arrays self x y err = Raise AttributeError.
Proof. reflexivity. Qed.

(** * sample *)

Lemma blocks_from_cons off xs xss :
  blocks_from off (xs :: xss)
  = combine (np.full_like xs off) xs ++ blocks_from (S off) xss.
Proof. reflexivity. Qed.

Lemma x_2d_from_1d_blocks xss :
  xss <> [] -> MultiStateData._x_2d_from_1d xss = Ok (blocks_from 0 xss).
Proof. destruct xss; [congruence | reflexivity]. Qed.

Lemma block_fst xs i :
  map fst (combine (np.full_like xs i) xs) = repeat (INR i) (length xs).
Proof. induction xs; simpl; congruence. Qed.

Lemma block_snd xs i : map snd (combine (np.full_like xs i) xs) = xs.
Proof. induction xs; simpl; congruence. Qed.

Lemma block_length xs i : length (combine (np.full_like xs i) xs) = length xs.
Proof.
  rewrite length_combine. unfold np.full_like. rewrite length_map. lia.
Qed.

Lemma blocks_from_repeat coords n : forall off,
  length (blocks_from off (repeat coords n)) = (n * length coords)%nat
  /\ map fst (blocks_from off (repeat coords n))
     = flat_map (fun i => repeat (INR i) (length coords)) (seq off n)
  /\ map snd (blocks_from off (repeat coords n)) = concat (repeat coords n).
Proof.
  induction n as [|n IH]; intros off; [now split|].
  simpl repeat. rewrite blocks_from_cons. destruct (IH (S off)) as (Hl & Hf & Hs).
  rewrite length_app, !map_app, block_length, block_fst, block_snd, Hl, Hf, Hs.
  simpl. auto.
Qed.

(** C9 (amended).  With at least one state, [sample(coords)] returns a
    matrix of [numStates * len(coords)] rows of two entries, whose first
    column is each state index repeated [len(coords)] times in key order
    and whose second column repeats [coords] once per state; with no state
    it raises [ValueError]. *)
Theorem sample_shape :
  forall (self : MultiStateData.t) (coords : list R),
    let numStates := length (MultiStateData.keys self) in
    (numStates <> 0%nat ->
     exists M,
       MultiStateData.sample self coords = Ok M
       /\ length M = (numStates * length coords)%nat
       /\ map fst M
          = flat_map (fun i => repeat (INR i) (length coords)) (seq 0 numStates)
       /\ map snd M = concat (repeat coords numStates))
    /\ (numStates = 0%nat ->
        MultiStateData.sample self coords = Raise ValueError).
Proof.
  intros self coords numStates. unfold MultiStateData.sample.
  fold numStates. split; intros Hn.
  - exists (blocks_from 0 (repeat coords numStates)). split.
    + apply x_2d_from_1d_blocks. destruct numStates; [lia | discriminate].
    + apply blocks_from_repeat.
  - now rewrite Hn.
Qed.

Lemma sample_shape_witness :
  exists M,
    MultiStateData.sample
      (MultiStateData.__init__
         (FrozenOrderedDict.__init__ [(KStr "a", StateData.mk [] [] [])])
         (ScikitLearnData.mk [] [] [] 1))
      [2%R; 3%R] = Ok M
    /\ length M = 2%nat.
Proof.
  destruct (sample_shape
              (MultiStateData.__init__
                 (FrozenOrderedDict.__init__ [(KStr "a", StateData.mk [] [] [])])
                 (ScikitLearnData.mk [] [] [] 1))
              [2%R; 3%R]) as [H _].
  destruct H as (M & HM & Hlen & _); [simpl; lia|].
  exists M. split; [exact HM | exact Hlen].
Defined.

(** An instance without states, built by [from_arrays] from an empty
    bundle: [sample] raises where a matrix of no rows was promised. *)
Lemma sample_zero_states_counterexample :
  exists m,
    MultiStateData.from_arrays [] [] [] None None = Ok m
    /\ length (MultiStateData.keys m) = 0%nat
    /\ MultiStateData.sample m [1%R] = Raise ValueError.
Proof. eexists. repeat split. Qed.

(** * np.unique *)

Lemma insert_unique_in (v a : R) (s : list R) :
  In a (np.insert_unique v s) <-> a = v \/ In a s.
Proof.
  induction s as [|w s IH]; simpl.
  - intuition.
  - destruct (Rlt_dec v w); [simpl; intuition|].
    destruct (Req_dec_T v w) as [->|Hne]; simpl; [intuition|].
    rewrite IH. intuition.
Qed.

Lemma insert_unique_hd (v w : R) (s : list R) :
  (w < v)%R -> HdRel Rlt w s -> HdRel Rlt w (np.insert_unique v s).
Proof.
  intros Hwv Hhd. destruct s as [|u s]; simpl; [now constructor|].
  destruct (Rlt_dec v u); [now constructor|].
  destruct (Req_dec_T v u); [assumption|].
  inversion Hhd; subst. now constructor.
Qed.

Lemma insert_unique_sorted (v : R) (s : list R) :
  Sorted Rlt s -> Sorted Rlt (np.insert_unique v s).
Proof.
  induction 1 as [|w s Hs IH Hhd]; simpl.
  - repeat constructor.
  - destruct (Rlt_dec v w) as [Hlt|Hnlt].
    + constructor; [now constructor | now constructor].
    + destruct (Req_dec_T v w) as [Heq|Hne]; [now constructor|].
      constructor; [exact IH|]. apply insert_unique_hd; [lra | exact Hhd].
Qed.

Lemma unique_in (a : list R) (v : R) : In v (np.unique a) <-> In v a.
Proof.
  induction a as [|w a IH]; simpl; [tauto|].
  rewrite insert_unique_in, IH. intuition.
Qed.

Lemma unique_sorted (a : list R) : StronglySorted Rlt (np.unique a).
Proof.
  apply Sorted_StronglySorted; [exact Rlt_trans|].
  induction a as [|w a IH]; simpl; [constructor|].
  now apply insert_unique_sorted.
Qed.

Lemma strictly_sorted_nodup (s : list R) : StronglySorted Rlt s -> NoDup s.
Proof.
  induction 1 as [|w s Hs IH Hall]; constructor; [|exact IH].
  intros Hin. rewrite Forall_forall in Hall. apply Hall in Hin. lra.
Qed.

Lemma unique_keys_nodup (a : list R) : NoDup (map KNum (np.unique a)).
Proof.
  pose proof (strictly_sorted_nodup (unique_sorted a)) as Hnd.
  induction Hnd as [|w s Hn Hnd IH]; simpl; constructor; [|exact IH].
  rewrite in_map_iff. intros (u & Heq & Hin). injection Heq as ->. tauto.
Qed.

(** * The generator of from_scikit_learn_data *)

Lemma mapM_ok {A B : Type} (f : A -> result B) (g : A -> B) (l : list A) :
  (forall a, In a l -> f a = Ok (g a)) -> mapM f l = Ok (map g l).
Proof.
  induction l as [|a l IH]; simpl; intros H; auto.
  rewrite H by auto. simpl. rewrite IH by auto. reflexivity.
Qed.

Section Selection.
Variable p : R * R -> bool.

Lemma bool_index_mask {A : Type} (x : list (R * R)) (a : list A) :
  length a = length x ->
  np.bool_index a (map p x)
  = Ok (map snd (filter (fun xa => p (fst xa)) (combine x a))).
Proof.
  intros Hlen. unfold np.bool_index.
  rewrite length_map, Hlen, Nat.eqb_refl. f_equal.
  revert a Hlen. induction x as [|r x IH]; intros [|b a] Hlen;
    simpl in *; try discriminate; auto.
  destruct (p r); simpl; rewrite IH by lia; reflexivity.
Qed.

Lemma select_rows (x : list (R * R)) : forall (y e : list R),
  length y = length x -> length e = length x ->
  let rows := filter (fun r => p (fst (fst r))) (combine (combine x y) e) in
  map snd (filter (fun xa => p (fst xa)) (combine x (map snd x)))
  = map (fun r => snd (fst (fst r))) rows
  /\ map snd (filter (fun xa => p (fst xa)) (combine x y))
     = map (fun r => snd (fst r)) rows
  /\ map snd (filter (fun xa => p (fst xa)) (combine x e)) = map snd rows.
Proof.
  induction x as [|r x IH]; intros [|b y] [|c e] Hy He;
    simpl in *; try discriminate; auto.
  destruct (IH y e) as (H1 & H2 & H3); [lia | lia |].
  destruct (p r); simpl; rewrite H1, H2, H3; auto.
Qed.
End Selection.

Lemma generator_spec (data : ScikitLearnData.t) (keys : list Key) :
  flat_bundle data ->
  MultiStateData.multi_state_data_generator data keys
  = Ok (map (fun ik => (snd ik, state_of_index data (fst ik)))
            (enumerate keys)).
Proof.
  intros [Hy He]. unfold MultiStateData.multi_state_data_generator.
  apply mapM_ok. intros [i k] _. cbn [fst snd].
  unfold MultiStateData.yield_state.
  rewrite (bool_index_mask (index_is i)) by now rewrite length_map.
  rewrite (bool_index_mask (index_is i)) by assumption.
  rewrite (bool_index_mask (index_is i)) by assumption.
  cbn [bind]. unfold state_of_index, rows_with_index.
  destruct (select_rows (index_is i) (ScikitLearnData.x data) (ScikitLearnData.y data)
              (ScikitLearnData.err data) Hy He) as (H1 & H2 & H3).
  rewrite H1, H2, H3, !map_map. reflexivity.
Qed.

Lemma generator_keys (data : ScikitLearnData.t) (keys : list Key) items :
  MultiStateData.multi_state_data_generator data keys = Ok items ->
  map fst items = keys.
Proof.
  unfold MultiStateData.multi_state_data_generator, enumerate.
  generalize 0%nat. revert items.
  induction keys as [|k keys IH]; simpl; intros items off H.
  - now injection H as <-.
  - unfold MultiStateData.yield_state in H at 1. cbn [fst snd] in H.
    destruct (np.bool_index _ _); [|discriminate]. simpl in H.
    destruct (np.bool_index _ _); [|discriminate]. simpl in H.
    destruct (np.bool_index _ _); [|discriminate]. simpl in H.
    destruct (mapM _ _) as [rest|] eqn:Hrest; [|discriminate].
    simpl in H. injection H as <-. simpl. f_equal. eapply IH, Hrest.
Qed.

Lemma keys_of_items_nodup {V : Type} (items : list (Key * V)) :
  NoDup (map fst items) ->
  OrderedDict.keys (OrderedDict.of_items items) = map fst items.
Proof. intros Hnd. now rewrite of_items_fixed. Qed.

(** C8.  With [keys] omitted, [from_scikit_learn_data] on a flat bundle
    returns an instance whose key sequence is [np.unique] of the index
    column: strictly ascending, holding exactly the values that occur in
    the column. *)
Theorem default_keys_sorted_distinct :
  forall (data : ScikitLearnData.t),
    flat_bundle data ->
    let column := map fst (ScikitLearnData.x data) in
    exists m,
      MultiStateData.from_scikit_learn_data data None = Ok m
      /\ MultiStateData.keys m = map KNum (np.unique column)
      /\ StronglySorted Rlt (np.unique column)
      /\ (forall v, In v (np.unique column) <-> In v column).
Proof.
  intros data Hwf column. unfold MultiStateData.from_scikit_learn_data.
  fold column. rewrite generator_spec by assumption. cbn [bind].
  eexists. split; [reflexivity|]. split; [|split].
  - unfold MultiStateData.keys. cbn [MultiStateData._keys_tuple
      MultiStateData.__init__]. unfold FrozenOrderedDict.__iter__.
    cbn [FrozenOrderedDict._d FrozenOrderedDict.__init__].
    assert (Hk : map fst (map (fun ik : nat * Key =>
                   (snd ik, state_of_index data (fst ik)))
                   (enumerate (map KNum (np.unique column))))
                 = map KNum (np.unique column)).
    { rewrite map_map. apply enumerate_snd. }
    rewrite keys_of_items_nodup; rewrite Hk; [reflexivity|].
    apply unique_keys_nodup.
  - apply unique_sorted.
  - intros v. apply unique_in.
Qed.

Lemma default_keys_sorted_distinct_witness :
  exists m,
    MultiStateData.from_scikit_learn_data
      (ScikitLearnData.mk [(1%R, 5%R); (0%R, 4%R)] [2%R; 3%R] [1%R; 1%R] 1)
      None = Ok m.
Proof.
  destruct (@default_keys_sorted_distinct
              (ScikitLearnData.mk [(1%R, 5%R); (0%R, 4%R)] [2%R; 3%R]
                 [1%R; 1%R] 1)) as (m & Hm & _).
  - split; reflexivity.
  - exists m. exact Hm.
Defined.

Lemma combine_seq_app {A : Type} (l1 l2 : list A) : forall off,
  combine (seq off (length (l1 ++ l2))) (l1 ++ l2)
  = combine (seq off (length l1)) l1
    ++ combine (seq (off + length l1) (length l2)) l2.
Proof.
  induction l1 as [|a l1 IH]; simpl; intros off.
  - now rewrite Nat.add_0_r.
  - rewrite IH. f_equal. f_equal. f_equal. f_equal. lia.
Qed.

(** C7.  On a flat bundle and any [keys], the generator yields, for the
    key at position [k], the rows whose index column is [k], multiplied
    back by the norm: the record depends on the position alone, not on the
    key.  In the instance returned, the state named by the key at position
    [k] holds these rows (for a name given more than once, those of its last
    position). *)
Theorem positional_matching :
  forall (data : ScikitLearnData.t) (keys : list Key),
    flat_bundle data ->
    exists m,
      MultiStateData.from_scikit_learn_data data (Some keys) = Ok m
      /\ MultiStateData.multi_state_data_generator data keys
         = Ok (map (fun ik => (snd ik, state_of_index data (fst ik)))
                   (enumerate keys))
      /\ (forall k key,
            nth_error keys k = Some key ->
            (forall j, (k < j)%nat -> nth_error keys j <> Some key) ->
            FrozenOrderedDict.__getitem__ (MultiStateData.odict m) key
            = Ok (state_of_index data k)).
Proof.
  intros data keys Hwf. unfold MultiStateData.from_scikit_learn_data.
  rewrite generator_spec by assumption. cbn [bind].
  eexists. split; [reflexivity|]. split; [reflexivity|].
  intros k key Hk Hlast.
  unfold MultiStateData.odict, FrozenOrderedDict.__getitem__.
  cbn [MultiStateData._dict MultiStateData.__init__ FrozenOrderedDict._d
       FrozenOrderedDict.__init__].
  destruct (nth_error_split _ _ Hk) as (l1 & l2 & -> & Hlen).
  unfold enumerate. rewrite combine_seq_app, map_app. simpl.
  rewrite Hlen. apply getitem_of_items_last.
  rewrite map_map. cbn [fst]. rewrite combine_seq_snd.
  intros Hin. apply In_nth_error in Hin. destruct Hin as [j Hj].
  apply (Hlast (S (k + j))); [lia|].
  rewrite nth_error_app2 by lia.
  replace (S (k + j) - length l1)%nat with (S j) by lia. exact Hj.
Qed.

(** Two names that are numbers, given against their values: the state
    named [1] is at position 0 and receives the rows of index 0. *)
Lemma positional_matching_witness :
  exists m,
    MultiStateData.from_scikit_learn_data
      (ScikitLearnData.mk [(0%R, 4%R); (1%R, 5%R)] [2%R; 3%R] [1%R; 1%R] 1)
      (Some [KNum 1; KNum 0]) = Ok m
    /\ FrozenOrderedDict.__getitem__ (MultiStateData.odict m) (KNum 1)
       = Ok (state_of_index
               (ScikitLearnData.mk [(0%R, 4%R); (1%R, 5%R)] [2%R; 3%R]
                  [1%R; 1%R] 1) 0).
Proof.
  destruct (@positional_matching
              (ScikitLearnData.mk [(0%R, 4%R); (1%R, 5%R)] [2%R; 3%R]
                 [1%R; 1%R] 1)
              [KNum 1; KNum 0]) as (m & Hm & _ & Hget).
  - split; reflexivity.
  - exists m. split; [exact Hm|]. apply Hget; [reflexivity|].
    intros [|[|[|j]]] Hj; simpl; try lia; try discriminate.
    intros Heq. injection Heq as Heq. lra.
Defined.

(** * Round trip *)

Section Select.
Lemma sel_app k X1 X2 P1 P2 :
  length X1 = length P1 ->
  sel k (X1 ++ X2) (P1 ++ P2) = sel k X1 P1 ++ sel k X2 P2.
Proof.
  intros Hlen. unfold sel. rewrite <- map_app, <- filter_app. do 2 f_equal.
  revert P1 Hlen. induction X1 as [|r X1 IH]; intros [|b P1] Hlen;
    simpl in *; try discriminate; auto.
  f_equal. apply IH. lia.
Qed.

Lemma sel_block_same k xs : forall ps,
  length ps = length xs -> sel k (combine (np.full_like xs k) xs) ps = ps.
Proof.
  unfold sel. induction xs as [|c xs IH]; intros [|b ps] Hlen;
    simpl in *; try discriminate; auto.
  unfold index_is at 1. simpl.
  destruct (Req_dec_T (INR k) (INR k)) as [_|Hne]; [|now elim Hne].
  simpl. f_equal. apply IH. lia.
Qed.

Lemma sel_block_other k i xs : forall ps,
  i <> k -> sel k (combine (np.full_like xs i) xs) ps = [].
Proof.
  unfold sel. induction xs as [|c xs IH]; intros [|b ps] Hne;
    simpl in *; auto.
  unfold index_is at 1. simpl.
  destruct (Req_dec_T (INR i) (INR k)) as [Heq|_].
  - apply INR_eq in Heq. contradiction.
  - now apply IH.
Qed.

Variable f : StateData.t -> list R.

Lemma sel_states_outside k vs : forall off,
  Forall (fits f) vs ->
  (k < off \/ off + length vs <= k)%nat ->
  sel k (blocks_from off (map StateData.x vs)) (concat (map f vs)) = [].
Proof.
  induction vs as [|v vs IH]; intros off Hall Hk; [reflexivity|].
  inversion Hall as [|? ? Hv Hvs]; subst. simpl in *.
  rewrite blocks_from_cons, sel_app by (rewrite block_length; now symmetry).
  rewrite sel_block_other by lia. rewrite IH by (auto; lia). reflexivity.
Qed.

Lemma sel_states_at v : forall vs1 vs2 off,
  Forall (fits f) (vs1 ++ v :: vs2) ->
  sel (off + length vs1)
      (blocks_from off (map StateData.x (vs1 ++ v :: vs2)))
      (concat (map f (vs1 ++ v :: vs2)))
  = f v.
Proof.
  induction vs1 as [|u vs1 IH]; intros vs2 off Hall.
  - simpl app in *. inversion Hall as [|? ? Hv Hvs]; subst.
    simpl. rewrite blocks_from_cons, Nat.add_0_r.
    rewrite sel_app by (rewrite block_length; now symmetry).
    rewrite sel_block_same by assumption.
    rewrite sel_states_outside by (auto; lia). apply app_nil_r.
  - simpl app in *. inversion Hall as [|? ? Hu Hrest]; subst.
    simpl. rewrite blocks_from_cons.
    rewrite sel_app by (rewrite block_length; now symmetry).
    rewrite sel_block_other by lia.
    replace (off + S (length vs1))%nat with (S off + length vs1)%nat by lia.
    now rewrite IH.
Qed.

Lemma blocks_from_length vs : forall off,
  Forall (fits f) vs ->
  length (concat (map f vs)) = length (blocks_from off (map StateData.x vs)).
Proof.
  induction vs as [|v vs IH]; intros off Hall; [reflexivity|].
  inversion Hall as [|? ? Hv Hvs]; subst. simpl.
  rewrite blocks_from_cons, !length_app, block_length, (IH (S off)) by auto.
  now rewrite Hv.
Qed.

End Select.

Lemma blocks_from_snd xss : forall off,
  map snd (blocks_from off xss) = concat xss.
Proof.
  induction xss as [|xs xss IH]; intros off; [reflexivity|].
  rewrite blocks_from_cons, map_app, block_snd, IH. reflexivity.
Qed.

(** * What convert_arrays would return *)

(** The [return] expression of [convert_arrays], were it reached: the new
    instance has the norm and the keys of [self]. *)
Lemma from_arrays_carries_norm_and_keys (self m' : MultiStateData.t)
      (x : list (R * R)) (y err : list R) :
  NoDup (MultiStateData.keys self) ->
  MultiStateData.from_arrays x y err (Some (MultiStateData.norm self))
    (Some (MultiStateData.keys self)) = Ok m' ->
  MultiStateData.norm m' = MultiStateData.norm self
  /\ MultiStateData.keys m' = MultiStateData.keys self.
Proof.
  intros Hnd. unfold MultiStateData.from_arrays,
    MultiStateData.from_scikit_learn_data.
  destruct (MultiStateData.multi_state_data_generator _ _) as [items|e] eqn:Hg;
    [|discriminate].
  cbn [bind]. intros H. injection H as <-. split; [reflexivity|].
  apply generator_keys in Hg. unfold MultiStateData.keys at 1.
  cbn [MultiStateData._keys_tuple MultiStateData.__init__].
  unfold FrozenOrderedDict.__iter__.
  cbn [FrozenOrderedDict._d FrozenOrderedDict.__init__].
  rewrite keys_of_items_nodup; rewrite Hg; [reflexivity | exact Hnd].
Qed.

(** * Further facts: the frozen dictionary *)

Lemma getitem_nodup_in {V : Type} (d : OrderedDict.t V) (k : Key) (v : V) :
  NoDup (OrderedDict.keys d) -> In (k, v) d -> OrderedDict.getitem d k = Ok v.
Proof.
  induction d as [|[k0 v0] d IH]; simpl; intros Hnd Hin; [tauto|].
  inversion Hnd as [|? ? Hn Hnd']; subst.
  destruct (key_eq_dec k0 k) as [->|Hne].
  - destruct Hin as [Heq|Hin]; [congruence|].
    elim Hn. apply in_map_iff. exists (k, v). auto.
  - destruct Hin as [Heq|Hin]; [congruence|]. now apply IH.
Qed.

(** The keys of a constructed map are pairwise distinct, they are the keys
    of the items given, and there are no more of them than items. *)
Theorem frozen_keys_distinct :
  forall (V : Type) (items : list (Key * V)),
    let d := FrozenOrderedDict.__init__ items in
    NoDup (FrozenOrderedDict.__iter__ d)
    /\ (forall k, In k (FrozenOrderedDict.__iter__ d) <-> In k (map fst items))
    /\ FrozenOrderedDict.__len__ d = length (FrozenOrderedDict.__iter__ d)
    /\ (FrozenOrderedDict.__len__ d <= length items)%nat.
Proof.
  intros V items d. unfold FrozenOrderedDict.__iter__, FrozenOrderedDict.__len__.
  subst d. cbn [FrozenOrderedDict._d FrozenOrderedDict.__init__].
  assert (Hlen : length (OrderedDict.of_items items)
                 = length (OrderedDict.keys (OrderedDict.of_items items)))
    by (unfold OrderedDict.keys; now rewrite length_map).
  repeat split.
  - apply of_items_nodup.
  - now apply keys_of_items.
  - now apply keys_of_items.
  - exact Hlen.
  - rewrite Hlen, <- (length_map fst items). apply NoDup_incl_length.
    + apply of_items_nodup.
    + intros k. apply keys_of_items.
Qed.

(** A key given several times is bound to the value of its last item. *)
Theorem frozen_getitem_last_wins :
  forall (V : Type) (items1 items2 : list (Key * V)) (k : Key) (v : V),
    ~ In k (map fst items2) ->
    FrozenOrderedDict.__getitem__
      (FrozenOrderedDict.__init__ (items1 ++ (k, v) :: items2)) k = Ok v.
Proof.
  intros V items1 items2 k v Hn. unfold FrozenOrderedDict.__getitem__.
  cbn [FrozenOrderedDict._d FrozenOrderedDict.__init__].
  now apply getitem_of_items_last.
Qed.

Lemma frozen_getitem_last_wins_witness :
  FrozenOrderedDict.__getitem__
    (FrozenOrderedDict.__init__
       ([(KStr "a", 1%Z)] ++ (KStr "a", 2%Z) :: [(KStr "b", 3%Z)]))
    (KStr "a") = Ok 2%Z.
Proof.
  apply frozen_getitem_last_wins. simpl. intros [H|[]]. discriminate.
Defined.

(** Items with distinct keys are kept as they are: iteration follows the
    order of insertion and every item is found under its key. *)
Theorem frozen_insertion_order :
  forall (V : Type) (items : list (Key * V)),
    NoDup (map fst items) ->
    FrozenOrderedDict.__iter__ (FrozenOrderedDict.__init__ items)
    = map fst items
    /\ FrozenOrderedDict.itervalues (FrozenOrderedDict.__init__ items)
       = map snd items
    /\ (forall k v, In (k, v) items ->
          FrozenOrderedDict.__getitem__ (FrozenOrderedDict.__init__ items) k
          = Ok v).
Proof.
  intros V items Hnd.
  unfold FrozenOrderedDict.__iter__, FrozenOrderedDict.itervalues,
    FrozenOrderedDict.__getitem__.
  cbn [FrozenOrderedDict._d FrozenOrderedDict.__init__].
  rewrite (@of_items_fixed _ items) by exact Hnd.
  repeat split. intros k v Hin. now apply getitem_nodup_in.
Qed.

Lemma frozen_insertion_order_witness :
  FrozenOrderedDict.__iter__
    (FrozenOrderedDict.__init__ [(KStr "b", 1%Z); (KStr "a", 2%Z)])
  = [KStr "b"; KStr "a"].
Proof.
  apply (@frozen_insertion_order Z [(KStr "b", 1%Z); (KStr "a", 2%Z)]).
  repeat constructor; simpl; intuition discriminate.
Defined.

(** Giving a known key again changes its value, not the order of the keys. *)
Theorem frozen_overwrite_keeps_order :
  forall (V : Type) (items : list (Key * V)) (k : Key) (v : V),
    In k (map fst items) ->
    FrozenOrderedDict.__iter__ (FrozenOrderedDict.__init__ (items ++ [(k, v)]))
    = FrozenOrderedDict.__iter__ (FrozenOrderedDict.__init__ items)
    /\ FrozenOrderedDict.__getitem__
         (FrozenOrderedDict.__init__ (items ++ [(k, v)])) k = Ok v.
Proof.
  intros V items k v Hin.
  unfold FrozenOrderedDict.__iter__, FrozenOrderedDict.__getitem__.
  cbn [FrozenOrderedDict._d FrozenOrderedDict.__init__].
  unfold OrderedDict.of_items, OrderedDict.update.
  rewrite fold_left_app. simpl. split.
  - apply keys_setitem_known. now apply keys_of_items.
  - apply getitem_setitem_same.
Qed.

Lemma frozen_overwrite_keeps_order_witness :
  FrozenOrderedDict.__iter__
    (FrozenOrderedDict.__init__
       ([(KStr "a", 1%Z); (KStr "b", 2%Z)] ++ [(KStr "a", 3%Z)]))
  = FrozenOrderedDict.__iter__
      (FrozenOrderedDict.__init__ [(KStr "a", 1%Z); (KStr "b", 2%Z)]).
Proof.
  apply (@frozen_overwrite_keeps_order Z [(KStr "a", 1%Z); (KStr "b", 2%Z)]
           (KStr "a") 3%Z).
  simpl. auto.
Defined.

(** A map built again from the entries of a constructed map is that map. *)
Theorem frozen_rebuild :
  forall (V : Type) (items : list (Key * V)),
    FrozenOrderedDict.__init__
      (FrozenOrderedDict._d (FrozenOrderedDict.__init__ items))
    = FrozenOrderedDict.__init__ items.
Proof.
  intros V items. unfold FrozenOrderedDict.__init__.
  cbn [FrozenOrderedDict._d]. f_equal. apply of_items_fixed, of_items_nodup.
Qed.

(** * Further facts: key and idx are inverse to each other *)

Lemma state_idx_lookup (ks : list Key) (i : nat) (k : Key) :
  NoDup ks ->
  nth_error ks i = Some k ->
  OrderedDict.getitem
    (OrderedDict.of_items
       (map (fun ix : nat * Key => (snd ix, fst ix)) (enumerate ks))) k
  = Ok i.
Proof.
  intros Hnd Hnth.
  assert (Hfst : map fst (map (fun ix : nat * Key => (snd ix, fst ix))
                            (enumerate ks)) = ks)
    by (rewrite map_map; apply enumerate_snd).
  rewrite of_items_fixed by (unfold OrderedDict.keys; now rewrite Hfst).
  apply getitem_nodup_in.
  - unfold OrderedDict.keys. now rewrite Hfst.
  - apply in_map_iff. exists (i, k). split; [reflexivity|].
    now apply enumerate_in.
Qed.

(** On an instance over a constructed map, [idx(key(i))] is [i] for every
    index [i] in [[0, numStates)], and [i + numStates] for the negative
    indices that [key] accepts. *)
Theorem key_then_idx :
  forall (items : list (Key * StateData.t)) (s : ScikitLearnData.t) (i : Z),
    let m := MultiStateData.__init__ (FrozenOrderedDict.__init__ items) s in
    let n := Z.of_nat (length (MultiStateData.keys m)) in
    (- n <= i < n)%Z ->
    exists k,
      MultiStateData.key m i = Ok k
      /\ MultiStateData.idx m k = Ok (Z.to_nat (i mod n)).
Proof.
  intros items s i m n Hi.
  assert (Hnd : NoDup (MultiStateData.keys m)) by apply of_items_nodup.
  unfold MultiStateData.key, MultiStateData.idx.
  change (MultiStateData._keys_tuple m) with (MultiStateData.keys m).
  change (MultiStateData._state_idx_dict m)
    with (OrderedDict.of_items
            (map (fun ix : nat * Key => (snd ix, fst ix))
                 (enumerate (MultiStateData.keys m)))).
  destruct (Z.neg_nonneg_cases i) as [Hneg|Hpos].
  - destruct (@tuple_getitem_negative _ (MultiStateData.keys m) i)
      as (k & Hk & Hnth); [fold n; lia|].
    exists k. split; [exact Hk|]. fold n in Hnth.
    replace (i mod n)%Z with (i + n)%Z.
    + now apply state_idx_lookup.
    + rewrite <- (Z_mod_plus_full i 1 n), Z.mul_1_l.
      symmetry. apply Z.mod_small. lia.
  - destruct (@tuple_getitem_nonneg _ (MultiStateData.keys m) i)
      as (k & Hk & Hnth); [fold n; lia|].
    exists k. split; [exact Hk|].
    rewrite Z.mod_small by lia. now apply state_idx_lookup.
Qed.

Lemma key_then_idx_witness :
  exists k,
    MultiStateData.key
      (MultiStateData.__init__
         (FrozenOrderedDict.__init__
            [(KStr "A", StateData.mk [] [] []);
             (KStr "B", StateData.mk [] [] [])])
         (ScikitLearnData.mk [] [] [] 1)) (-1) = Ok k
    /\ MultiStateData.idx
         (MultiStateData.__init__
            (FrozenOrderedDict.__init__
               [(KStr "A", StateData.mk [] [] []);
                (KStr "B", StateData.mk [] [] [])])
            (ScikitLearnData.mk [] [] [] 1)) k = Ok 1%nat.
Proof.
  apply (@key_then_idx
           [(KStr "A", StateData.mk [] [] []);
            (KStr "B", StateData.mk [] [] [])]
           (ScikitLearnData.mk [] [] [] 1) (-1)%Z).
  vm_compute. split; [discriminate | reflexivity].
Defined.

(** On an instance over a constructed map, [key(idx(k))] is [k] for every
    key [k] of the instance, and [idx(k)] is below [numStates]. *)
Theorem idx_then_key :
  forall (items : list (Key * StateData.t)) (s : ScikitLearnData.t) (k : Key),
    let m := MultiStateData.__init__ (FrozenOrderedDict.__init__ items) s in
    In k (MultiStateData.keys m) ->
    exists i,
      MultiStateData.idx m k = Ok i
      /\ (i < length (MultiStateData.keys m))%nat
      /\ MultiStateData.key m (Z.of_nat i) = Ok k.
Proof.
  intros items s k m Hin.
  assert (Hnd : NoDup (MultiStateData.keys m)) by apply of_items_nodup.
  destruct (In_nth_error _ _ Hin) as [i Hnth].
  assert (Hlt : (i < length (MultiStateData.keys m))%nat)
    by (apply nth_error_Some; congruence).
  exists i. split; [|split; [exact Hlt|]].
  - unfold MultiStateData.idx.
    change (MultiStateData._state_idx_dict m)
      with (OrderedDict.of_items
              (map (fun ix : nat * Key => (snd ix, fst ix))
                   (enumerate (MultiStateData.keys m)))).
    now apply state_idx_lookup.
  - unfold MultiStateData.key.
    change (MultiStateData._keys_tuple m) with (MultiStateData.keys m).
    destruct (@tuple_getitem_nonneg _ (MultiStateData.keys m) (Z.of_nat i))
      as (a & Ha & Hnth'); [lia|].
    rewrite Nat2Z.id in Hnth'. congruence.
Qed.

Lemma idx_then_key_witness :
  exists i,
    MultiStateData.idx
      (MultiStateData.__init__
         (FrozenOrderedDict.__init__
            [(KStr "A", StateData.mk [] [] []);
             (KStr "B", StateData.mk [] [] [])])
         (ScikitLearnData.mk [] [] [] 1)) (KStr "B") = Ok i
    /\ (i < 2)%nat.
Proof.
  destruct (@idx_then_key
              [(KStr "A", StateData.mk [] [] []);
               (KStr "B", StateData.mk [] [] [])]
              (ScikitLearnData.mk [] [] [] 1) (KStr "B"))
    as (i & Hi & Hlt & _).
  - vm_compute. auto.
  - exists i. split; [exact Hi | exact Hlt].
Defined.

(** * Further facts: the flat view made by from_state_data *)

Lemma states_index_column (vs : list StateData.t) : forall off,
  map fst (blocks_from off (map StateData.x vs))
  = concat (map (fun iv => repeat (INR (fst iv)) (length (StateData.x (snd iv))))
                (combine (seq off (length vs)) vs)).
Proof.
  induction vs as [|v vs IH]; intros off; [reflexivity|].
  simpl map. rewrite blocks_from_cons, map_app, block_fst, IH. reflexivity.
Qed.

(** * Further facts: from_scikit_learn_data *)

Lemma yield_state_not_flat (data : ScikitLearnData.t) (i : nat) (k : Key) :
  ~ flat_bundle data ->
  MultiStateData.yield_state data i k = Raise IndexError.
Proof.
  intros Hnot. unfold MultiStateData.yield_state.
  rewrite (bool_index_mask (index_is i)) by now rewrite length_map.
  cbn [bind]. unfold np.bool_index. rewrite !length_map.
  destruct (Nat.eqb_spec (length (ScikitLearnData.x data))
                         (length (ScikitLearnData.y data))) as [Hy|Hy];
    [|reflexivity].
  cbn [bind].
  destruct (Nat.eqb_spec (length (ScikitLearnData.x data))
                         (length (ScikitLearnData.err data))) as [He|He];
    [|reflexivity].
  elim Hnot. split; congruence.
Qed.

(** [from_scikit_learn_data] with [keys] given raises [IndexError] exactly
    when there is a key and the bundle is not flat ([y] or [err] is not as
    long as [x]); otherwise it returns an instance that carries the bundle
    it was given, norm included, unchanged.  It does not reject an empty
    bundle. *)
Theorem from_scikit_learn_data_errors :
  forall (data : ScikitLearnData.t) (keys : list Key),
    (flat_bundle data \/ keys = [] ->
     exists m,
       MultiStateData.from_scikit_learn_data data (Some keys) = Ok m
       /\ MultiStateData.arrays m = data
       /\ MultiStateData.norm m = ScikitLearnData.norm data)
    /\ (~ flat_bundle data -> keys <> [] ->
        MultiStateData.from_scikit_learn_data data (Some keys)
        = Raise IndexError).
Proof.
  intros data keys. unfold MultiStateData.from_scikit_learn_data. split.
  - intros [Hflat | ->].
    + rewrite generator_spec by assumption. cbn [bind].
      eexists. repeat split.
    + eexists. repeat split.
  - intros Hnot Hne. destruct keys as [|k keys]; [congruence|].
    unfold MultiStateData.multi_state_data_generator, enumerate.
    cbn [length seq combine mapM fst snd].
    rewrite yield_state_not_flat by assumption. reflexivity.
Qed.

Lemma from_scikit_learn_data_errors_witness :
  MultiStateData.from_scikit_learn_data
    (ScikitLearnData.mk [(0%R, 1%R)] [] [1%R] 1) (Some [KStr "a"])
  = Raise IndexError.
Proof.
  apply from_scikit_learn_data_errors.
  - unfold flat_bundle. simpl. intros [H _]. discriminate.
  - discriminate.
Defined.

(** With [keys] omitted the names are the distinct index values in
    ascending order, and the rows are still chosen by position: the state
    named by the [k]-th smallest value holds the rows whose index column is
    [k].  Names and rows agree only when the values are [0, 1, ..]. *)
Theorem default_keys_by_position :
  forall (data : ScikitLearnData.t),
    flat_bundle data ->
    exists m,
      MultiStateData.from_scikit_learn_data data None = Ok m
      /\ (forall k u,
            nth_error (np.unique (map fst (ScikitLearnData.x data))) k
            = Some u ->
            FrozenOrderedDict.__getitem__ (MultiStateData.odict m) (KNum u)
            = Ok (state_of_index data k)).
Proof.
  intros data Hflat. unfold MultiStateData.from_scikit_learn_data.
  rewrite generator_spec by assumption. cbn [bind].
  eexists. split; [reflexivity|]. intros k u Hnth.
  unfold MultiStateData.odict, FrozenOrderedDict.__getitem__.
  cbn [MultiStateData._dict MultiStateData.__init__ FrozenOrderedDict._d
       FrozenOrderedDict.__init__].
  set (ks := map KNum (np.unique (map fst (ScikitLearnData.x data)))).
  assert (Hfst : map fst (map (fun ik : nat * Key =>
                   (snd ik, state_of_index data (fst ik))) (enumerate ks))
                 = ks)
    by (rewrite map_map; apply enumerate_snd).
  assert (Hnd : NoDup ks) by apply unique_keys_nodup.
  rewrite of_items_fixed by (unfold OrderedDict.keys; now rewrite Hfst).
  apply getitem_nodup_in.
  - unfold OrderedDict.keys. now rewrite Hfst.
  - apply in_map_iff. exists (k, KNum u). split; [reflexivity|].
    apply enumerate_in. subst ks. now apply map_nth_error.
Qed.

(** A single row of index 5: the only state is named 5 and is empty. *)
Lemma default_keys_by_position_witness :
  exists m,
    MultiStateData.from_scikit_learn_data
      (ScikitLearnData.mk [(5%R, 7%R)] [2%R] [1%R] 1) None = Ok m
    /\ FrozenOrderedDict.__getitem__ (MultiStateData.odict m) (KNum 5)
       = Ok (StateData.mk [] [] []).
Proof.
  destruct (@default_keys_by_position
              (ScikitLearnData.mk [(5%R, 7%R)] [2%R] [1%R] 1))
    as (m & Hm & Hget).
  - split; reflexivity.
  - exists m. split; [exact Hm|].
    rewrite (Hget 0%nat 5%R) by reflexivity. f_equal.
    unfold state_of_index, rows_with_index. simpl.
    unfold index_is. simpl.
    destruct (Req_dec_T 5 0) as [H|_]; [lra | reflexivity].
Defined.

(** * Further facts: no row is counted twice *)

Lemma index_is_exclusive (row : R * R) (i j : nat) :
  index_is i row = true -> j <> i -> index_is j row = false.
Proof.
  unfold index_is. destruct (Req_dec_T (fst row) (INR i)) as [Hi|_];
    [|discriminate].
  intros _ Hne. destruct (Req_dec_T (fst row) (INR j)) as [Hj|_];
    [|reflexivity].
  elim Hne. apply INR_eq. congruence.
Qed.

Lemma hits_count (row : R * R) (n : nat) : forall off,
  list_sum (map (fun i => if index_is i row then 1 else 0)%nat (seq off n))
  = if existsb (fun i => index_is i row) (seq off n) then 1%nat else 0%nat.
Proof.
  induction n as [|n IH]; intros off; [reflexivity|].
  simpl. rewrite IH. destruct (index_is off row) eqn:Hoff; [|reflexivity].
  simpl. destruct (existsb _ (seq (S off) n)) eqn:Hex; [|reflexivity].
  apply existsb_exists in Hex. destruct Hex as (j & Hin & Hj).
  apply in_seq in Hin.
  rewrite (index_is_exclusive row Hoff) in Hj by lia. discriminate.
Qed.

Lemma list_sum_map_add {A : Type} (f g : A -> nat) (l : list A) :
  list_sum (map (fun a => f a + g a)%nat l)
  = (list_sum (map f l) + list_sum (map g l))%nat.
Proof. induction l as [|a l IH]; simpl; [reflexivity | rewrite IH; lia]. Qed.

(** Counting, position by position, the entries of index [i] counts once
    each entry whose index is a position. *)
Lemma partition_count {A : Type} (g : A -> R * R) (n : nat) (l : list A) :
  list_sum (map (fun i => length (filter (fun r => index_is i (g r)) l))
                (seq 0 n))
  = length (filter (fun r => index_in_range n (g r)) l).
Proof.
  induction l as [|r l IH]; simpl.
  - induction (seq 0 n) as [|i s IHs]; simpl; auto.
  - rewrite (map_ext
               (fun i => length (if index_is i (g r)
                                 then r :: filter (fun r0 => index_is i (g r0)) l
                                 else filter (fun r0 => index_is i (g r0)) l))
               (fun i => ((if index_is i (g r) then 1 else 0)
                          + length (filter (fun r0 => index_is i (g r0)) l))%nat))
      by (intros i; now destruct (index_is i (g r))).
    rewrite list_sum_map_add, IH, hits_count. unfold index_in_range.
    now destruct (existsb _ (seq 0 n)).
Qed.

Lemma zipped_filter_length (q : R * R -> bool) (x : list (R * R)) :
  forall (y e : list R),
    length y = length x -> length e = length x ->
    length (filter (fun r => q (fst (fst r))) (combine (combine x y) e))
    = length (filter q x).
Proof.
  induction x as [|r x IH]; intros [|b y] [|c e] Hy He;
    simpl in *; try discriminate; auto.
  destruct (q r); simpl; rewrite IH by lia; reflexivity.
Qed.

Lemma combine_seq_fst {A : Type} (l : list A) : forall off,
  map fst (combine (seq off (length l)) l) = seq off (length l).
Proof.
  induction l as [|a l IH]; simpl; intros off; auto. now rewrite IH.
Qed.

(** * Further facts: sample feeds from_arrays *)

Lemma sample_rows_x (coords : list R) (n i : nat) :
  (i < n)%nat ->
  sel i (blocks_from 0 (repeat coords n)) (concat (repeat coords n)) = coords.
Proof.
  intros Hi. set (v0 := StateData.mk coords [] []).
  assert (Hsplit : repeat v0 n = repeat v0 i ++ v0 :: repeat v0 (n - S i)).
  { replace n with (i + S (n - S i))%nat at 1 by lia.
    now rewrite repeat_app. }
  assert (Hx : repeat coords n = map StateData.x (repeat v0 n))
    by now rewrite map_repeat.
  rewrite Hx, Hsplit.
  assert (Hall : Forall (fits StateData.x)
                        (repeat v0 i ++ v0 :: repeat v0 (n - S i)))
    by (apply Forall_forall; reflexivity).
  pose proof (@sel_states_at StateData.x v0 (repeat v0 i)
                (repeat v0 (n - S i)) 0 Hall) as H.
  rewrite repeat_length in H. exact H.
Qed.

(** The matrix [sample(coords)] makes, given to [from_arrays] with the
    instance's keys and any values and errors of matching length, yields an
    instance with the same keys in which every state has the coordinates
    [coords] and one value and one error per coordinate. *)
Theorem sample_then_from_arrays :
  forall (self : MultiStateData.t) (coords y err : list R) (norm : option R),
    NoDup (MultiStateData.keys self) ->
    MultiStateData.keys self <> [] ->
    length y = (length (MultiStateData.keys self) * length coords)%nat ->
    length err = (length (MultiStateData.keys self) * length coords)%nat ->
    exists X m',
      MultiStateData.sample self coords = Ok X
      /\ MultiStateData.from_arrays X y err norm
           (Some (MultiStateData.keys self)) = Ok m'
      /\ MultiStateData.keys m' = MultiStateData.keys self
      /\ (forall k, In k (MultiStateData.keys self) ->
            exists v,
              FrozenOrderedDict.__getitem__ (MultiStateData.odict m') k = Ok v
              /\ StateData.x v = coords
              /\ length (StateData.y v) = length coords
              /\ length (StateData.err v) = length coords).
Proof.
  intros self coords y err norm Hnd Hne Hy He.
  set (n := length (MultiStateData.keys self)) in *.
  destruct (blocks_from_repeat coords n 0) as (Hlen & _ & _).
  exists (blocks_from 0 (repeat coords n)). eexists. split.
  { unfold MultiStateData.sample. fold n. apply x_2d_from_1d_blocks.
    destruct (MultiStateData.keys self); [congruence | discriminate]. }
  unfold MultiStateData.from_arrays, MultiStateData.from_scikit_learn_data.
  set (data := ScikitLearnData.mk (blocks_from 0 (repeat coords n)) y err
                 (match norm with None => 1%R | Some r => r end)).
  assert (Hflat : flat_bundle data) by (split; simpl; congruence).
  rewrite generator_spec by assumption. cbn [bind].
  split; [reflexivity|].
  change (ScikitLearnData.mk (blocks_from 0 (repeat coords n)) y err
            (match norm with None => 1%R | Some r => r end)) with data.
  remember (map (fun ik : nat * Key => (snd ik, state_of_index data (fst ik)))
                (enumerate (MultiStateData.keys self))) as items eqn:Hitems.
  assert (Hfst : map fst items = MultiStateData.keys self)
    by (rewrite Hitems, map_map; apply enumerate_snd).
  assert (Hfix : OrderedDict.of_items items = items)
    by (apply of_items_fixed; unfold OrderedDict.keys; now rewrite Hfst).
  unfold MultiStateData.keys at 1, MultiStateData.odict,
    FrozenOrderedDict.__getitem__.
  cbn [MultiStateData._dict MultiStateData._keys_tuple
       MultiStateData.__init__].
  unfold FrozenOrderedDict.__iter__.
  cbn [FrozenOrderedDict._d FrozenOrderedDict.__init__].
  rewrite Hfix. split; [exact Hfst|].
  intros k Hin. destruct (In_nth_error _ _ Hin) as [i Hnth].
  assert (Hi : (i < n)%nat) by (apply nth_error_Some; congruence).
  exists (state_of_index data i). split.
  { apply getitem_nodup_in.
    - unfold OrderedDict.keys. now rewrite Hfst.
    - rewrite Hitems. apply in_map_iff. exists (i, k).
      split; [reflexivity|]. now apply enumerate_in. }
  destruct Hflat as [Hfy Hfe].
  destruct (select_rows (index_is i) (ScikitLearnData.x data)
              (ScikitLearnData.y data) (ScikitLearnData.err data) Hfy Hfe)
    as (H1 & _ & _).
  assert (Hx : StateData.x (state_of_index data i) = coords).
  { unfold state_of_index, rows_with_index. cbn [StateData.x].
    rewrite <- H1. unfold data.
    cbn [ScikitLearnData.x]. rewrite blocks_from_snd.
    now apply sample_rows_x. }
  split; [exact Hx|].
  unfold state_of_index in *. cbn [StateData.x StateData.y StateData.err] in *.
  assert (Hrows : length (rows_with_index data i) = length coords)
    by (rewrite <- (length_map (fun r : R * R * R * R => snd (fst (fst r))));
        now rewrite Hx).
  rewrite !length_map. auto.
Qed.

Lemma sample_then_from_arrays_witness :
  exists X m',
    MultiStateData.sample
      (MultiStateData.__init__
         (FrozenOrderedDict.__init__ [(KStr "a", StateData.mk [] [] [])])
         (ScikitLearnData.mk [] [] [] 1))
      [2%R; 3%R] = Ok X
    /\ MultiStateData.from_arrays X [5%R; 6%R] [1%R; 1%R] None
         (Some [KStr "a"]) = Ok m'.
Proof.
  destruct (@sample_then_from_arrays
              (MultiStateData.__init__
                 (FrozenOrderedDict.__init__ [(KStr "a", StateData.mk [] [] [])])
                 (ScikitLearnData.mk [] [] [] 1))
              [2%R; 3%R] [5%R; 6%R] [1%R; 1%R] None)
    as (X & m' & HX & Hm' & _).
  - repeat constructor. simpl. tauto.
  - discriminate.
  - reflexivity.
  - reflexivity.
  - exists X, m'. split; [exact HX | exact Hm'].
Defined.

(** * Further facts: from_arrays *)

(** On arrays of matching length [from_arrays] returns an instance whose
    norm is the one given, or 1 when it is omitted, and whose keys are the
    keys given exactly when these are pairwise distinct. *)
Theorem from_arrays_norm_and_keys :
  forall (x : list (R * R)) (y err : list R) (norm : option R)
         (keys : list Key),
    length y = length x ->
    length err = length x ->
    exists m,
      MultiStateData.from_arrays x y err norm (Some keys) = Ok m
      /\ MultiStateData.norm m
         = match norm with None => 1%R | Some n => n end
      /\ (MultiStateData.keys m = keys <-> NoDup keys).
Proof.
  intros x y err norm keys Hy He.
  unfold MultiStateData.from_arrays, MultiStateData.from_scikit_learn_data.
  rewrite generator_spec by (split; assumption). cbn [bind].
  eexists. split; [reflexivity|]. split; [reflexivity|].
  remember (map _ (enumerate keys)) as items eqn:Hitems.
  assert (Hfst : map fst items = keys)
    by (rewrite Hitems, map_map; apply enumerate_snd).
  unfold MultiStateData.keys.
  cbn [MultiStateData._keys_tuple MultiStateData.__init__].
  unfold FrozenOrderedDict.__iter__.
  cbn [FrozenOrderedDict._d FrozenOrderedDict.__init__].
  split.
  - intros <-. apply of_items_nodup.
  - intros Hnd. rewrite keys_of_items_nodup; rewrite Hfst; auto.
Qed.

Lemma from_arrays_norm_and_keys_witness :
  exists m,
    MultiStateData.from_arrays [(0%R, 4%R)] [2%R] [1%R] None
      (Some [KStr "a"]) = Ok m
    /\ MultiStateData.norm m = 1%R.
Proof.
  destruct (@from_arrays_norm_and_keys [(0%R, 4%R)] [2%R] [1%R] None
              [KStr "a"]) as (m & Hm & Hnorm & _).
  - reflexivity.
  - reflexivity.
  - exists m. split; [exact Hm | exact Hnorm].
Defined.

(** * Further facts: _x_2d_from_1d *)

Lemma blocks_from_columns (xss : list (list R)) : forall off,
  length (blocks_from off xss) = length (concat xss)
  /\ map fst (blocks_from off xss)
     = concat (map (fun ix => repeat (INR (fst ix)) (length (snd ix)))
                   (combine (seq off (length xss)) xss)).
Proof.
  induction xss as [|xs xss IH]; intros off; [now split|].
  destruct (IH (S off)) as [Hlen Hfst].
  rewrite blocks_from_cons, !length_app, map_app, block_length, block_fst,
    Hlen, Hfst. simpl. rewrite length_app. auto.
Qed.

(** [_x_2d_from_1d] raises [ValueError] on an empty list of arrays.  On any
    other list it returns one row per coordinate: the second column is the
    arrays one after the other, the first column is the position of each
    array repeated once per coordinate of that array. *)
Theorem x_2d_from_1d_layout :
  forall (x_1d_ : list (list R)),
    (x_1d_ = [] -> MultiStateData._x_2d_from_1d x_1d_ = Raise ValueError)
    /\ (x_1d_ <> [] ->
        exists M,
          MultiStateData._x_2d_from_1d x_1d_ = Ok M
          /\ length M = length (concat x_1d_)
          /\ map snd M = concat x_1d_
          /\ map fst M
             = concat (map (fun ix => repeat (INR (fst ix)) (length (snd ix)))
                           (enumerate x_1d_))).
Proof.
  intros x_1d_. split.
  - intros ->. reflexivity.
  - intros Hne. exists (blocks_from 0 x_1d_).
    destruct (blocks_from_columns x_1d_ 0) as [Hlen Hfst].
    split; [now apply x_2d_from_1d_blocks|].
    split; [exact Hlen|]. split; [apply blocks_from_snd | exact Hfst].
Qed.

Lemma x_2d_from_1d_layout_witness :
  exists M,
    MultiStateData._x_2d_from_1d [[1%R; 2%R]; []; [3%R]] = Ok M
    /\ map fst M = [INR 0; INR 0; INR 2].
Proof.
  destruct (x_2d_from_1d_layout [[1%R; 2%R]; []; [3%R]]) as [_ H].
  destruct H as (M & HM & _ & _ & Hfst); [discriminate|].
  exists M. split; [exact HM | exact Hfst].
Defined.

(** * from_state_data *)

Lemma length_concat_sum {A : Type} (l : list (list A)) :
  length (concat l) = list_sum (map (@length A) l).
Proof.
  induction l as [|a l IH]; simpl; auto. now rewrite length_app, IH.
Qed.

Lemma total_observations_flat (d : OrderedDict.t StateData.t) :
  total_observations d
  = length (concat (map StateData.y (OrderedDict.values d))).
Proof.
  unfold total_observations. now rewrite length_concat_sum, map_map.
Qed.

Lemma py_or_nonzero (a b : R) : b <> 0%R -> py_or a b <> 0%R.
Proof. unfold py_or. destruct (Req_dec_T a 0); auto. Qed.

Lemma norm_nonzero (s y0 : R) : py_or s (py_or y0 1) <> 0%R.
Proof. apply py_or_nonzero, py_or_nonzero. lra. Qed.

(** What [from_state_data] does, on the dictionary [OrderedDict(items)],
    for any float64 arithmetic. *)
Lemma from_state_data_spec (std : list R -> R) (true_divide : R -> R -> R)
      (items : list (Key * StateData.t)) :
  let d := OrderedDict.of_items items in
  let flat_y := concat (map StateData.y (OrderedDict.values d)) in
  let norm := py_or (std flat_y) (py_or (nth 0 flat_y 0%R) 1) in
  (flat_y = [] ->
   forall y_dtype,
     MultiStateData.from_state_data std true_divide y_dtype items
     = Raise ValueError)
  /\ (flat_y <> [] ->
      MultiStateData.from_state_data std true_divide int64 items
      = Raise TypeError
      /\ MultiStateData.from_state_data std true_divide float64 items
         = Ok (MultiStateData.__init__ (FrozenOrderedDict.__init__ items)
                 (ScikitLearnData.mk
                    (blocks_from 0 (map StateData.x (OrderedDict.values d)))
                    (map (fun v => true_divide v norm) flat_y)
                    (map (fun v => true_divide v norm)
                         (concat (map StateData.err (OrderedDict.values d))))
                    norm))).
Proof.
  intros d flat_y norm. unfold MultiStateData.from_state_data.
  unfold FrozenOrderedDict.itervalues. simpl FrozenOrderedDict._d.
  fold d. subst norm flat_y.
  destruct (OrderedDict.values d) as [|v vs] eqn:Hvs.
  - split; [reflexivity | intros H; now elim H].
  - rewrite x_2d_from_1d_blocks by discriminate.
    cbn [map np.hstack bind].
    set (flat_y := concat (StateData.y v :: map StateData.y vs)).
    destruct flat_y as [|y0 ys] eqn:Hy.
    + split; [reflexivity | intros H; now elim H].
    + split; [discriminate | intros _; split; reflexivity].
Qed.

(** C4.  On a non-empty concatenated value vector of floats,
    [from_state_data] returns an instance whose norm is the standard
    deviation [y.std()] of the vector if that is nonzero, else the first
    value if that is nonzero, else 1.  On a vector of integers the norm is
    computed in the same way and the division that follows raises
    [TypeError]. *)
Theorem norm_fallback_chain :
  forall (std : list R -> R) (true_divide : R -> R -> R)
         (items : list (Key * StateData.t)),
    let flat_y :=
      concat (map StateData.y
                (OrderedDict.values (OrderedDict.of_items items))) in
    flat_y <> [] ->
    (exists m,
       MultiStateData.from_state_data std true_divide float64 items = Ok m
       /\ MultiStateData.norm m
          = if Req_dec_T (std flat_y) 0 then
              if Req_dec_T (nth 0 flat_y 0%R) 0 then 1%R else nth 0 flat_y 0%R
            else std flat_y)
    /\ MultiStateData.from_state_data std true_divide int64 items
       = Raise TypeError.
Proof.
  intros std true_divide items flat_y Hne.
  destruct (from_state_data_spec std true_divide items) as [_ H].
  destruct (H Hne) as [Hint Hfloat]. split; [|exact Hint].
  rewrite Hfloat. eexists. split; reflexivity.
Qed.

Lemma norm_fallback_chain_witness :
  exists m,
    MultiStateData.from_state_data exact_std Rdiv float64
      [(KStr "A", StateData.mk [1%R; 2%R] [10%R; 20%R] [1%R; 1%R]);
       (KStr "B", StateData.mk [3%R] [30%R] [2%R])] = Ok m.
Proof.
  destruct (norm_fallback_chain exact_std Rdiv
              [(KStr "A", StateData.mk [1%R; 2%R] [10%R; 20%R] [1%R; 1%R]);
               (KStr "B", StateData.mk [3%R] [30%R] [2%R])])
    as [(m & Hm & _) _].
  - vm_compute. discriminate.
  - exists m. exact Hm.
Defined.




(** * The sign of the norm *)

Lemma std_singleton (v : R) : exact_std [v] = 0%R.
Proof.
  unfold exact_std, np.mean, np.sum. simpl.
  replace ((Rsqr (v - (v + 0) / 1) + 0) / 1)%R with 0%R
    by (unfold Rsqr; field).
  apply sqrt_0.
Qed.

(** C3 (as the code has it).  One state holding the single value [-5]:
    the standard deviation is 0, the chain falls to the first value, and
    the instance is returned with the norm [-5]. *)
Theorem from_state_data_negative_norm :
  forall (std : list R -> R) (true_divide : R -> R -> R),
    std [(-5)%R] = 0%R ->
    exists m,
      MultiStateData.from_state_data std true_divide float64
        [(KStr "a", StateData.mk [0%R] [(-5)%R] [1%R])] = Ok m
      /\ MultiStateData.norm m = (-5)%R
      /\ ~ (MultiStateData.norm m > 0)%R.
Proof.
  intros std true_divide Hstd.
  destruct (from_state_data_spec std true_divide
              [(KStr "a", StateData.mk [0%R] [(-5)%R] [1%R])]) as [_ H].
  change (concat (map StateData.y (OrderedDict.values (OrderedDict.of_items
            [(KStr "a", StateData.mk [0%R] [(-5)%R] [1%R])]))))
    with [(-5)%R] in H.
  destruct (H ltac:(discriminate)) as [_ Hfloat].
  eexists. split; [exact Hfloat|].
  unfold MultiStateData.norm.
  cbn [MultiStateData._scikit MultiStateData.__init__ ScikitLearnData.norm nth].
  rewrite Hstd. unfold py_or.
  destruct (Req_dec_T 0 0) as [_|Hne]; [|now elim Hne].
  destruct (Req_dec_T (-5) 0) as [Heq|_]; [lra|]. split; [reflexivity | lra].
Qed.

Lemma from_state_data_negative_norm_witness :
  exists m,
    MultiStateData.from_state_data exact_std Rdiv float64
      [(KStr "a", StateData.mk [0%R] [(-5)%R] [1%R])] = Ok m
    /\ MultiStateData.norm m = (-5)%R.
Proof.
  destruct (from_state_data_negative_norm exact_std Rdiv
              (std_singleton (-5))) as (m & Hm & Hn & _).
  exists m. split; [exact Hm | exact Hn].
Defined.

(** * Round trip through the flat arrays *)







(** * Further facts: the flat arrays of from_state_data *)

(** For float values, states whose sequences have one length each and at
    least one value in all, the arrays of the instance are a flat bundle
    with one row per observation; the coordinate column is the states' [x]
    one after the other, and [y] and [err] are the states' [y] and [err]
    one after the other, each value divided by the norm. *)
Theorem flat_view_consistent :
  forall (std : list R -> R) (true_divide : R -> R -> R)
         (items : list (Key * StateData.t)),
    let D := OrderedDict.of_items items in
    Forall equal_length (OrderedDict.values D) ->
    total_observations D <> 0%nat ->
    exists m,
      MultiStateData.from_state_data std true_divide float64 items = Ok m
      /\ flat_bundle (MultiStateData.arrays m)
      /\ length (ScikitLearnData.x (MultiStateData.arrays m))
         = total_observations D
      /\ map snd (ScikitLearnData.x (MultiStateData.arrays m))
         = concat (map StateData.x (OrderedDict.values D))
      /\ ScikitLearnData.y (MultiStateData.arrays m)
         = map (fun v => true_divide v (MultiStateData.norm m))
               (concat (map StateData.y (OrderedDict.values D)))
      /\ ScikitLearnData.err (MultiStateData.arrays m)
         = map (fun v => true_divide v (MultiStateData.norm m))
               (concat (map StateData.err (OrderedDict.values D))).
Proof.
  intros std true_divide items D Hall Htotal.
  destruct (from_state_data_spec std true_divide items) as [_ Hfull].
  fold D in Hfull. rewrite total_observations_flat in Htotal.
  assert (Hne : concat (map StateData.y (OrderedDict.values D)) <> [])
    by (intros Heq; rewrite Heq in Htotal; now apply Htotal).
  destruct (Hfull Hne) as [_ Hfloat]. eexists. split; [exact Hfloat|].
  unfold MultiStateData.arrays, MultiStateData.norm, flat_bundle.
  cbn [MultiStateData._scikit MultiStateData.__init__ ScikitLearnData.x
       ScikitLearnData.y ScikitLearnData.err ScikitLearnData.norm].
  assert (Hy : Forall (fits StateData.y) (OrderedDict.values D))
    by (eapply Forall_impl; [|exact Hall]; intros v [Hx _]; now symmetry).
  assert (He : Forall (fits StateData.err) (OrderedDict.values D))
    by (eapply Forall_impl; [|exact Hall]; intros v [Hx He];
        unfold fits; congruence).
  pose proof (blocks_from_length (f := StateData.y) 0 Hy) as Hly.
  pose proof (blocks_from_length (f := StateData.err) 0 He) as Hle.
  rewrite !length_map, total_observations_flat, blocks_from_snd.
  repeat split; congruence.
Qed.

Lemma flat_view_consistent_witness :
  exists m,
    MultiStateData.from_state_data exact_std Rdiv float64
      [(KStr "A", StateData.mk [1%R; 2%R] [10%R; 20%R] [1%R; 1%R]);
       (KStr "B", StateData.mk [3%R] [30%R] [2%R])] = Ok m
    /\ flat_bundle (MultiStateData.arrays m).
Proof.
  destruct (flat_view_consistent exact_std Rdiv
              [(KStr "A", StateData.mk [1%R; 2%R] [10%R; 20%R] [1%R; 1%R]);
               (KStr "B", StateData.mk [3%R] [30%R] [2%R])])
    as (m & Hm & Hflat & _).
  - repeat constructor.
  - vm_compute. discriminate.
  - exists m. split; [exact Hm | exact Hflat].
Defined.

(** For float values with at least one value in all, the index column of
    the flat [x] is the position of each state, repeated once per
    coordinate of that state, state after state in key order. *)
Theorem flat_index_column :
  forall (std : list R -> R) (true_divide : R -> R -> R)
         (items : list (Key * StateData.t)),
    let D := OrderedDict.of_items items in
    total_observations D <> 0%nat ->
    exists m,
      MultiStateData.from_state_data std true_divide float64 items = Ok m
      /\ map fst (ScikitLearnData.x (MultiStateData.arrays m))
         = concat
             (map (fun iv => repeat (INR (fst iv))
                               (length (StateData.x (snd iv))))
                  (enumerate (OrderedDict.values D))).
Proof.
  intros std true_divide items D Htotal.
  destruct (from_state_data_spec std true_divide items) as [_ Hfull].
  fold D in Hfull. rewrite total_observations_flat in Htotal.
  assert (Hne : concat (map StateData.y (OrderedDict.values D)) <> [])
    by (intros Heq; rewrite Heq in Htotal; now apply Htotal).
  destruct (Hfull Hne) as [_ Hfloat]. eexists. split; [exact Hfloat|].
  unfold MultiStateData.arrays.
  cbn [MultiStateData._scikit MultiStateData.__init__ ScikitLearnData.x].
  apply states_index_column.
Qed.

Lemma flat_index_column_witness :
  exists m,
    MultiStateData.from_state_data exact_std Rdiv float64
      [(KStr "A", StateData.mk [1%R; 2%R] [10%R; 20%R] [1%R; 1%R]);
       (KStr "B", StateData.mk [3%R] [30%R] [2%R])] = Ok m
    /\ map fst (ScikitLearnData.x (MultiStateData.arrays m))
       = [INR 0; INR 0; INR 1].
Proof.
  destruct (flat_index_column exact_std Rdiv
              [(KStr "A", StateData.mk [1%R; 2%R] [10%R; 20%R] [1%R; 1%R]);
               (KStr "B", StateData.mk [3%R] [30%R] [2%R])])
    as (m & Hm & Hcol).
  - vm_compute. discriminate.
  - exists m. split; [exact Hm | exact Hcol].
Defined.

(** * Further facts: the norm of from_state_data *)

(** For float values with at least one value in all, the norm of the
    instance is not zero, whatever [y.std()] returns; it is the standard
    deviation when that is positive, and it is positive too when the
    standard deviation is 0 and the first value is not negative. *)
Theorem norm_never_zero :
  forall (std : list R -> R) (true_divide : R -> R -> R)
         (items : list (Key * StateData.t)),
    let D := OrderedDict.of_items items in
    let flat_y := concat (map StateData.y (OrderedDict.values D)) in
    total_observations D <> 0%nat ->
    exists m,
      MultiStateData.from_state_data std true_divide float64 items = Ok m
      /\ MultiStateData.norm m <> 0%R
      /\ ((0 < std flat_y)%R -> MultiStateData.norm m = std flat_y)
      /\ (std flat_y = 0%R -> (0 <= nth 0 flat_y 0)%R ->
          (MultiStateData.norm m > 0)%R).
Proof.
  intros std true_divide items D flat_y Htotal.
  destruct (from_state_data_spec std true_divide items) as [_ Hfull].
  fold D in Hfull. fold flat_y in Hfull.
  rewrite total_observations_flat in Htotal. fold flat_y in Htotal.
  assert (Hne : flat_y <> [])
    by (intros Heq; rewrite Heq in Htotal; now apply Htotal).
  destruct (Hfull Hne) as [_ Hfloat]. eexists. split; [exact Hfloat|].
  unfold MultiStateData.norm.
  cbn [MultiStateData._scikit MultiStateData.__init__ ScikitLearnData.norm].
  split; [apply norm_nonzero|]. unfold py_or. split.
  - intros Hpos. destruct (Req_dec_T (std flat_y) 0); [lra | reflexivity].
  - intros Hz Hy0. destruct (Req_dec_T (std flat_y) 0); [|contradiction].
    destruct (Req_dec_T (nth 0 flat_y 0%R) 0); lra.
Qed.

Lemma norm_never_zero_witness :
  exists m,
    MultiStateData.from_state_data exact_std Rdiv float64
      [(KStr "A", StateData.mk [1%R] [0%R] [1%R])] = Ok m
    /\ MultiStateData.norm m <> 0%R.
Proof.
  destruct (norm_never_zero exact_std Rdiv
              [(KStr "A", StateData.mk [1%R] [0%R] [1%R])])
    as (m & Hm & Hnz & _).
  - vm_compute. discriminate.
  - exists m. split; [exact Hm | exact Hnz].
Defined.

(** * Further facts: the rows the states hold *)

(** On a flat bundle and distinct keys, the state of the key at position
    [i] is made of the rows whose index column is [i], in their order,
    with [y] and [err] multiplied by the norm; taken together the states
    hold as many observations as there are rows whose index column is a
    position [0 .. len(keys)-1], so that no row is held twice, a row with
    any other index is left out, and no row is lost when every index is a
    position. *)
Theorem rows_kept_once :
  forall (data : ScikitLearnData.t) (keys : list Key),
    flat_bundle data ->
    NoDup keys ->
    exists m,
      MultiStateData.from_scikit_learn_data data (Some keys) = Ok m
      /\ FrozenOrderedDict._d (MultiStateData.odict m)
         = map (fun ik => (snd ik, state_of_index data (fst ik)))
               (enumerate keys)
      /\ total_observations (FrozenOrderedDict._d (MultiStateData.odict m))
         = length (filter (index_in_range (length keys))
                          (ScikitLearnData.x data))
      /\ (forallb (index_in_range (length keys)) (ScikitLearnData.x data)
          = true ->
          total_observations (FrozenOrderedDict._d (MultiStateData.odict m))
          = length (ScikitLearnData.x data)).
Proof.
  intros data keys Hflat Hnd. unfold MultiStateData.from_scikit_learn_data.
  rewrite generator_spec by assumption. cbn [bind].
  eexists. split; [reflexivity|].
  unfold MultiStateData.odict.
  cbn [MultiStateData._dict MultiStateData.__init__ FrozenOrderedDict._d
       FrozenOrderedDict.__init__].
  assert (Hfst : map fst (map (fun ik : nat * Key =>
                   (snd ik, state_of_index data (fst ik))) (enumerate keys))
                 = keys)
    by (rewrite map_map; apply enumerate_snd).
  rewrite of_items_fixed by (unfold OrderedDict.keys; now rewrite Hfst).
  split; [reflexivity|].
  assert (Htotal :
    total_observations
      (map (fun ik : nat * Key => (snd ik, state_of_index data (fst ik)))
           (enumerate keys))
    = length (filter (index_in_range (length keys)) (ScikitLearnData.x data))).
  { unfold total_observations, OrderedDict.values. rewrite !map_map.
    cbn [snd fst]. unfold state_of_index. cbn [StateData.y].
    rewrite (map_ext
               (fun ik : nat * Key =>
                  length (map (fun r : R * R * R * R =>
                                 (snd (fst r) * ScikitLearnData.norm data)%R)
                              (rows_with_index data (fst ik))))
               (fun ik => (fun i => length (rows_with_index data i)) (fst ik)))
      by (intros ik; now rewrite length_map).
    rewrite <- (map_map fst (fun i => length (rows_with_index data i))).
    unfold enumerate. rewrite combine_seq_fst. unfold rows_with_index.
    rewrite (partition_count (fun r : R * R * R * R => fst (fst r))).
    destruct Hflat as [Hy He]. now apply zipped_filter_length. }
  split; [exact Htotal|].
  intros Hall. rewrite Htotal. now rewrite forallb_filter_id.
Qed.

(** Two rows of index 0 and 2, one key: only the row of index 0 is kept. *)
Lemma rows_kept_once_witness :
  exists m,
    MultiStateData.from_scikit_learn_data
      (ScikitLearnData.mk [(0%R, 4%R); (2%R, 5%R)] [2%R; 3%R] [1%R; 1%R] 1)
      (Some [KStr "a"]) = Ok m
    /\ total_observations (FrozenOrderedDict._d (MultiStateData.odict m))
       = 1%nat.
Proof.
  destruct (@rows_kept_once
              (ScikitLearnData.mk [(0%R, 4%R); (2%R, 5%R)] [2%R; 3%R]
                 [1%R; 1%R] 1)
              [KStr "a"]) as (m & Hm & _ & Htotal & _).
  - split; reflexivity.
  - repeat constructor. simpl. tauto.
  - exists m. split; [exact Hm|]. rewrite Htotal. simpl.
    unfold index_in_range, index_is. simpl.
    destruct (Req_dec_T 0 0) as [_|H]; [|now elim H].
    destruct (Req_dec_T 2 0) as [H|_]; [lra | reflexivity].
Defined.
